(** * pybuild.package: the package lifecycle and artifact cache

    A shallow embedding of [src/pybuild/package.py] (class [Package]) and
    the properties of its archive naming, cache fetch, publishing, source
    enumeration, toolchain validation and build-environment set-up.

    Python objects are records, [None]-able attributes are options, the
    methods are programs of a state-and-exception monad over the package
    instance, the file system and a log of the operating-system calls. *)

From stdpp Require Import base decidable option list strings gmap pretty.
From Stdlib Require Import ZArith Ascii String.

Local Open Scope string_scope.
Local Open Scope Z_scope.

(** ** Strings *)

Module Str.

(** [str.lower] on the ASCII range (class names are identifiers). *)
Definition lower_ascii (c : ascii) : ascii :=
  let n := N_of_ascii c in
  if ((65 <=? n) && (n <=? 90))%N then ascii_of_N (n + 32) else c.

Fixpoint lower (s : string) : string :=
  match s with
  | EmptyString => EmptyString
  | String c r => String (lower_ascii c) (lower r)
  end.

(** [str.upper] on the ASCII range. *)
Definition upper_ascii (c : ascii) : ascii :=
  let n := N_of_ascii c in
  if ((97 <=? n) && (n <=? 122))%N then ascii_of_N (n - 32) else c.

Fixpoint upper (s : string) : string :=
  match s with
  | EmptyString => EmptyString
  | String c r => String (upper_ascii c) (upper r)
  end.

(** [s.split('/')]. *)
Fixpoint split_slash (s : string) : list string :=
  match s with
  | EmptyString => [EmptyString]
  | String c r =>
      if Ascii.eqb c "/" then EmptyString :: split_slash r
      else match split_slash r with
           | h :: t => String c h :: t
           | [] => [String c EmptyString]
           end
  end.

Fixpoint join (sep : string) (l : list string) : string :=
  match l with
  | [] => ""
  | [x] => x
  | x :: r => x +:+ sep +:+ join sep r
  end.

Definition starts_with_slash (s : string) : bool :=
  match s with
  | String c _ => Ascii.eqb c "/"
  | EmptyString => false
  end.

(** Truthiness of a [str]: non-empty. *)
Definition truthy (s : string) : bool :=
  match s with EmptyString => false | _ => true end.

End Str.

(** ** Paths ([pathlib.PurePosixPath]) *)

Record Path := mkPath { anchored : bool; parts : list string }.

Module Pathlib.

Definition keep_part (s : string) : bool :=
  negb (String.eqb s "") && negb (String.eqb s ".").

(** [pathlib.Path(s)]: empty and [.] components are dropped. *)
Definition of_str (s : string) : Path :=
  mkPath (Str.starts_with_slash s) (List.filter keep_part (Str.split_slash s)).

(** [str(p)] / [os.fspath(p)]. *)
Definition to_str (p : Path) : string :=
  match anchored p, parts p with
  | true, ps => "/" +:+ Str.join "/" ps
  | false, [] => "."
  | false, ps => Str.join "/" ps
  end.

(** [p / s]: an absolute right operand replaces the left one. *)
Definition joinpath (p : Path) (s : string) : Path :=
  if Str.starts_with_slash s then of_str s
  else mkPath (anchored p) (parts p ++ parts (of_str s)).

(** [os.path.basename]: what follows the last slash. *)
Definition basename (s : string) : string :=
  List.last (Str.split_slash s) "".

End Pathlib.

Notation "p // s" := (Pathlib.joinpath p s) (at level 40, left associativity).

Arguments Pathlib.of_str : simpl never.
Arguments Pathlib.to_str : simpl never.
Arguments Pathlib.joinpath : simpl never.
Arguments Pathlib.basename : simpl never.

(** ** Data model *)

(** The classes of [pybuild.source] that [package.py] tests with
    [isinstance]; [KindOther] is any other subclass of [Source]. *)
Inductive SourceKind := KindURL | KindVCS | KindOther.

(** A [Source] object, with the attributes [package.py] reads. A [None]
    or empty [sig_suffix] is falsy. *)
Record Source := mkSource {
  kind : SourceKind;
  source_url : string;
  sig_suffix : option string;
}.

(** Modelled from the spec: the constructor [URLSource(url)] of
    [pybuild/source.py], which is not part of the sources at hand. By the
    spec's data model a Source has an origin locator and an optional
    detached-signature suffix; built from a locator alone it has no
    suffix. *)
Definition URLSource (url : string) : Source :=
  mkSource KindURL url None.

(** An entry of [patches]: a patch kept in the tree is no [Source], a
    patch that is fetched is one. *)
Inductive Patch :=
| LocalPatch (file : string)
| RemotePatch (src : Source).

(** The object returned by [target_arch()]. *)
Record Arch := mkArch {
  arch_class_name : string;
  ANDROID_TARGET : string;
  binutils_prefix : string;
}.

(** Values of the [env] dictionary:
    [Union[_PathType, Sequence[_PathType]]]. *)
Inductive EnvValue :=
| EnvStr (s : string)
| EnvPath (p : Path)
| EnvSeq (l : list string).

(** A subclass of [Package]: its name and class attributes. *)
Record PackageClass := mkPackageClass {
  cls_name : string;
  version : option string;
  source : option Source;
  patches : list Patch;
  dependencies : list string;
  skip_uploading : bool;
}.

(** A [Package] instance. [unified_toolchain] has no value until
    [_check_ndk] assigns it: [None] is the missing attribute. *)
Record Package := mkPackage {
  klass : PackageClass;
  name : string;
  arch : string;
  env : gmap string EnvValue;
  _ndk : option Path;
  unified_toolchain : option Path;
}.

(** ** Exceptions *)

Inductive exn :=
| Exception (msg : string)
| AttributeError (msg : string)
| HTTPError (code : Z)
| URLError (reason : string)
| FileNotFoundError (path : string)
| IsADirectoryError (path : string)
| FileExistsError (path : string)
| NotImplementedError
| CollaboratorError (msg : string).

Inductive Res (A : Type) :=
| Return (a : A)
| Raise (e : exn).
Arguments Return {A} a.
Arguments Raise {A} e.

(** ** The world outside the interpreter *)

Inductive Node :=
| Dir
| File (content : string) (mode : Z).

Inductive HttpResult :=
| Http200 (body : string)
| HttpFail (code : Z)
| Unreachable (reason : string).

(** Calls to the operating system, in the order they are made. *)
Inductive Event :=
| EPrint (line : string)
| EStat (path : string)
| EUrlopen (url : string)
| EOpenWrite (path : string)
| ERun (cmd : list string) (cwd : string)
| ECopy2 (src dst : string)
| EChmod (path : string) (mode : Z)
| EMkdir (path : string).

Record State := mkState {
  self : Package;
  fs : gmap string Node;
  trace : list Event;
}.

(** The process environment, the host and the remote archive store. *)
Class Host := {
  environ : gmap string string;
  uname_sysname : string;
  remote : string → HttpResult;
  umask : Z;
}.

(** The functions of [pybuild.util] that [package.py] imports. *)
Class Util := {
  BASE : Path;
  android_api_level : Z;
  target_arch : Arch;
  tar_cmd : string;
  parse_ndk_revision : Path → gmap string Node → Res string;
  run_in_dir : list string → Path → gmap string Node → Res unit * gmap string Node;
}.

(** The methods of [Source] objects that [package.py] calls. *)
Class SourceApi := {
  source_dir : Package → Source → Path;
  source_get_version : Source → gmap string Node → Res string;
}.

(** ** The monad of methods: state and exceptions *)

Definition M (A : Type) : Type := State → Res A * State.

Global Instance M_ret : MRet M := λ A a st, (Return a, st).

Global Instance M_bind : MBind M := λ A B f m st,
  match m st with
  | (Return a, st') => f a st'
  | (Raise e, st') => (Raise e, st')
  end.

Definition raise {A} (e : exn) : M A := λ st, (Raise e, st).

(** [try: body except: handler]; the handler re-raises what it does not
    handle. *)
Definition try_except {A} (body : M A) (handler : exn → M A) : M A := λ st,
  match body st with
  | (Return a, st') => (Return a, st')
  | (Raise e, st') => handler e st'
  end.

Definition get_self : M Package := λ st, (Return (self st), st).

Definition set_self (f : Package → Package) : M unit := λ st,
  (Return (), mkState (f (self st)) (fs st) (trace st)).

Definition get_fs : M (gmap string Node) := λ st, (Return (fs st), st).

Definition set_fs (f : gmap string Node) : M unit := λ st,
  (Return (), mkState (self st) f (trace st)).

Definition emit (e : Event) : M unit := λ st,
  (Return (), mkState (self st) (fs st) (trace st ++ [e])).

Definition lift_res {A} (r : Res A) : M A := λ st, (r, st).

(** ** Operating-system and library calls *)

Section Primitives.
Context `{Host, Util}.

Definition print (line : string) : M unit := emit (EPrint line).

(** [os.getenv]. *)
Definition getenv (key : string) : M (option string) := mret (environ !! key).

(** Truthiness of what [os.getenv] returns: [None] and [''] are falsy. *)
Definition truthy_opt (o : option string) : bool :=
  match o with Some s => Str.truthy s | None => false end.

(** [Path.exists]. *)
Definition path_exists (p : Path) : M bool :=
  emit (EStat (Pathlib.to_str p));;
  f ← get_fs;
  mret (bool_decide (is_Some (f !! Pathlib.to_str p))).

(** [urllib.request.urlopen(url)], then [.read()] on success. *)
Definition urlopen (url : string) : M string :=
  emit (EUrlopen url);;
  match remote url with
  | Http200 body => mret body
  | HttpFail code => raise (HTTPError code)
  | Unreachable reason => raise (URLError reason)
  end.

Definition parent (p : Path) : Path :=
  mkPath (anchored p) (removelast (parts p)).

(** Creating or replacing a regular file at [p]. *)
Definition put_file (p : Path) (content : string) (mode : Z)
    (f : gmap string Node) : Res (gmap string Node) :=
  match f !! Pathlib.to_str p with
  | Some Dir => Raise (IsADirectoryError (Pathlib.to_str p))
  | Some (File _ _) => Return (<[Pathlib.to_str p := File content mode]> f)
  | None =>
      match f !! Pathlib.to_str (parent p) with
      | Some Dir => Return (<[Pathlib.to_str p := File content mode]> f)
      | _ => Raise (FileNotFoundError (Pathlib.to_str p))
      end
  end.

(** [with open(p, 'wb') as f: f.write(data)]. *)
Definition open_write (p : Path) (data : string) : M unit :=
  emit (EOpenWrite (Pathlib.to_str p));;
  f ← get_fs;
  let mode :=
    match f !! Pathlib.to_str p with
    | Some (File _ m) => m
    | _ => Z.ldiff 438 umask
    end in
  f' ← lift_res (put_file p data mode f);
  set_fs f'.

(** [shutil.copy2(src, dst)]: into [dst] when it is a directory, with the
    mode of the original. *)
Definition copy2 (src dst : Path) : M unit :=
  emit (ECopy2 (Pathlib.to_str src) (Pathlib.to_str dst));;
  f ← get_fs;
  match f !! Pathlib.to_str src with
  | Some (File content mode) =>
      let target :=
        match f !! Pathlib.to_str dst with
        | Some Dir => dst // Pathlib.basename (Pathlib.to_str src)
        | _ => dst
        end in
      f' ← lift_res (put_file target content mode f);
      set_fs f'
  | Some Dir => raise (IsADirectoryError (Pathlib.to_str src))
  | None => raise (FileNotFoundError (Pathlib.to_str src))
  end.

(** [os.chmod(p, mode)]. *)
Definition chmod (p : Path) (mode : Z) : M unit :=
  emit (EChmod (Pathlib.to_str p) mode);;
  f ← get_fs;
  match f !! Pathlib.to_str p with
  | Some (File content _) => set_fs (<[Pathlib.to_str p := File content mode]> f)
  | Some Dir => mret ()
  | None => raise (FileNotFoundError (Pathlib.to_str p))
  end.

Fixpoint mkdir_chain (anch : bool) (above below : list string)
    (f : gmap string Node) : Res (gmap string Node) :=
  match below with
  | [] => Return f
  | c :: rest =>
      let here := Pathlib.to_str (mkPath anch (above ++ [c])) in
      match f !! here with
      | Some (File _ _) => Raise (FileExistsError here)
      | Some Dir => mkdir_chain anch (above ++ [c]) rest f
      | None => mkdir_chain anch (above ++ [c]) rest (<[here := Dir]> f)
      end
  end.

(** [p.mkdir(exist_ok=True, parents=True)]. *)
Definition mkdir (p : Path) : M unit :=
  emit (EMkdir (Pathlib.to_str p));;
  f ← get_fs;
  f' ← lift_res (mkdir_chain (anchored p) [] (parts p) f);
  set_fs f'.

(** [util.run_in_dir(cmd, cwd=...)]: a subprocess that may change files. *)
Definition run_in_dir_at (cmd : list string) (cwd : Path) : M unit :=
  emit (ERun cmd (Pathlib.to_str cwd));;
  f ← get_fs;
  set_fs (run_in_dir cmd cwd f).2;;
  lift_res (run_in_dir cmd cwd f).1.

End Primitives.

(** ** class Package *)

Section PackageMethods.
Context `{Host, Util, SourceApi}.

Definition BUILDDIR : Path := BASE // "build".
Definition DIST_PATH : Path := BUILDDIR // "dist".
Definition SYSROOT : Path := BUILDDIR // "sysroot".
Definition ARCHIVES_ROOT : string := "https://dl.chyen.cc/python3-android/".

Definition set_env (e : gmap string EnvValue) (p : Package) : Package :=
  mkPackage (klass p) (name p) (arch p) e (_ndk p) (unified_toolchain p).

Definition set_ndk (n : option Path) (p : Package) : Package :=
  mkPackage (klass p) (name p) (arch p) (env p) n (unified_toolchain p).

Definition set_unified_toolchain (t : option Path) (p : Package) : Package :=
  mkPackage (klass p) (name p) (arch p) (env p) (_ndk p) t.

(** [isinstance(patch, Source)]. *)
Definition as_source (p : Patch) : option Source :=
  match p with
  | RemotePatch s => Some s
  | LocalPatch _ => None
  end.

(** [itertools.chain([self.source], self.patches)], each item kept when
    it is truthy and a [Source]. *)
Definition chained (c : PackageClass) : list (option Source) :=
  source c :: map as_source (patches c).

(** The body of the loop of [sources]: [ret.append] once or twice. *)
Definition sources_step (ret : list Source) (item : option Source) : list Source :=
  match item with
  | Some s =>
      let ret := (ret ++ [s])%list in
      if truthy_opt (sig_suffix s)
      then (ret ++ [URLSource (source_url s +:+ default "" (sig_suffix s))])%list
      else ret
  | None => ret
  end.

(** The property [sources]. *)
Definition sources (p : Package) : list Source :=
  foldl sources_step [] (chained (klass p)).

(** [destdir] (a class method). *)
Definition destdir (c : PackageClass) : Path :=
  BUILDDIR // "target" // Str.lower (cls_name c).

(** The attributes [__init__] assigns. *)
Definition instantiate (c : PackageClass) : Package :=
  mkPackage c (Str.lower (cls_name c)) (arch_class_name target_arch) ∅ None None.

(** [__init__]; the back-references [f.package = self] are not kept. *)
Definition __init__ (c : PackageClass) : M unit :=
  set_self (λ _, instantiate c);;
  mkdir DIST_PATH;;
  mkdir (destdir c);;
  mkdir SYSROOT.

(** [get_version]: [self.version or self.source.get_version()]. *)
Definition get_version : M string :=
  p ← get_self;
  if truthy_opt (version (klass p)) then mret (default "" (version (klass p)))
  else match source (klass p) with
       | Some s => f ← get_fs; lift_res (source_get_version s f)
       | None =>
           raise (AttributeError "'NoneType' object has no attribute 'get_version'")
       end.

Definition no_attribute (p : Package) (attr : string) : exn :=
  AttributeError ("'" +:+ cls_name (klass p) +:+ "' object has no attribute '"
                  +:+ attr +:+ "'").

Definition binutils : list string :=
  ["ar"; "as"; "ld"; "objcopy"; "objdump"; "ranlib"; "strip"; "readelf"].

(** [dict.update] with the items of a literal, in order. *)
Definition dict_update (items : list (string * EnvValue))
    (d : gmap string EnvValue) : gmap string EnvValue :=
  foldl (λ d kv, <[kv.1 := kv.2]> d) d items.

Definition init_build_env : M bool :=
  p ← get_self;
  if bool_decide (env p ≠ ∅) then mret false
  else
    match unified_toolchain p with
    | None => raise (no_attribute p "unified_toolchain")
    | Some toolchain =>
        let CLANG_PREFIX :=
          toolchain // (ANDROID_TARGET target_arch +:+ pretty android_api_level) in
        let cflags := ["-fPIC"] in
        set_self (λ p, set_env (dict_update [
          ("CC", EnvStr (Pathlib.to_str CLANG_PREFIX +:+ "-clang"));
          ("CXX", EnvStr (Pathlib.to_str CLANG_PREFIX +:+ "-clang++"));
          ("CPP", EnvStr (Pathlib.to_str CLANG_PREFIX +:+ "-clang -E"));
          ("CPPFLAGS", EnvSeq ["-I" +:+ Pathlib.to_str SYSROOT +:+ "/usr/include"]);
          ("CFLAGS", EnvSeq cflags);
          ("CXXFLAGS", EnvSeq cflags);
          ("LDFLAGS", EnvSeq ["-L" +:+ Pathlib.to_str SYSROOT +:+ "/usr/lib";
                              "-pie"; "-fuse-ld=lld"]);
          ("PKG_CONFIG_SYSROOT_DIR", EnvPath SYSROOT);
          ("PKG_CONFIG_LIBDIR", EnvPath (SYSROOT // "usr" // "lib" // "pkgconfig"))
        ] (env p)) p);;
        set_self (λ p, set_env (foldl (λ d prog,
          <[Str.upper prog :=
              EnvPath (toolchain // (binutils_prefix target_arch +:+ "-" +:+ prog))]> d)
          (env p) binutils) p);;
        mret true
    end.

Definition need_download : M bool :=
  p ← get_self;
  match source (klass p) with
  | None => mret false
  | Some s =>
      match kind s with
      | KindVCS => mret true
      | _ =>
          found ← path_exists (source_dir p s // "Makefile");
          mret (negb found)
      end
  end.

Definition _check_ndk : M unit :=
  ndk_path ← getenv "ANDROID_NDK";
  if negb (truthy_opt ndk_path)
  then raise (Exception "Requires environment variable $ANDROID_NDK")
  else
    let ndk := Pathlib.of_str (default "" ndk_path) in
    let HOST_OS := Str.lower uname_sysname in
    if negb (bool_decide (HOST_OS ∈ ["linux"; "darwin"]))
    then raise (Exception ("Unsupported system " +:+ HOST_OS))
    else
      let toolchain :=
        ndk // "toolchains" // "llvm" // "prebuilt" // (HOST_OS +:+ "-x86_64") // "bin" in
      set_self (set_unified_toolchain (Some toolchain));;
      found ← path_exists toolchain;
      if negb found
      then raise (Exception "Requires Android NDK r19 or above")
      else set_self (set_ndk (Some ndk)).

(** The property [ndk]: validated on first use, then remembered. *)
Definition ndk : M (option Path) :=
  p ← get_self;
  (if bool_decide (_ndk p = None) then _check_ndk else mret ());;
  p ← get_self;
  mret (_ndk p).

Definition prepare : M unit := raise NotImplementedError.

Definition build : M unit := raise NotImplementedError.

(** The property [tarball_name]. *)
Definition tarball_name : M string :=
  root ← ndk;
  f ← get_fs;
  ndk_revision ←
    match root with
    | Some root => lift_res (parse_ndk_revision root f)
    | None => raise (CollaboratorError "parse_ndk_revision(None)")
    end;
  p ← get_self;
  v ← get_version;
  mret (name p +:+ "-" +:+ arch p +:+ "-" +:+ v +:+ "-android"
        +:+ pretty android_api_level +:+ "-ndk_" +:+ ndk_revision +:+ ".tar.bz2").

(** The property [tarball_path]. *)
Definition tarball_path : M Path :=
  n ← tarball_name;
  mret (DIST_PATH // n).

Definition create_tarball : M unit :=
  n ← tarball_name;
  print ("Creating " +:+ n +:+ " in " +:+ Pathlib.to_str DIST_PATH +:+ "...");;
  p ← get_self;
  t ← tarball_path;
  run_in_dir_at [tar_cmd; "-jcf"; Pathlib.to_str t; "."] (destdir (klass p)).

Definition upload_tarball : M unit :=
  p ← get_self;
  if skip_uploading (klass p)
  then print ("Skipping uploading for package " +:+ name p)
  else
    dest ← getenv "PYTHON3_ANDROID_TARBALL_DEST";
    if truthy_opt dest
    then
      let dest_path := Pathlib.of_str (default "" dest) in
      t ← tarball_path;
      copy2 t dest_path;;
      t ← tarball_path;
      chmod (dest_path // Pathlib.basename (Pathlib.to_str t)) 420
    else mret ().

Definition extract_tarball : M unit :=
  t ← tarball_path;
  run_in_dir_at [tar_cmd; "-jxf"; Pathlib.to_str t] SYSROOT.

(** [fetch_tarball] returns [None], [True] or [False]. The [return False]
    inside the handler is the left injection. *)
Definition fetch_tarball : M (option bool) :=
  p ← get_self;
  if skip_uploading (klass p)
  then print ("Skipping fetching package " +:+ name p);; mret None
  else
    t ← tarball_path;
    found ← path_exists t;
    if (found : bool)
    then
      t ← tarball_path;
      print ("Skipping already downloaded " +:+ Pathlib.to_str t +:+ "...");;
      mret (Some true)
    else
      t ← tarball_path;
      let url := ARCHIVES_ROOT +:+ Pathlib.basename (Pathlib.to_str t) in
      r ← try_except (A := (bool + string)%type)
            (print ("Downloading " +:+ url +:+ "...");;
             req ← urlopen url;
             mret (inr req))
            (λ err,
               match err with
               | HTTPError code =>
                   if code =? 404
                   then print (url +:+ " is missing. Skipping...");; mret (inl false)
                   else raise err
               | _ => raise err
               end);
      match r with
      | inl b => mret (Some b)
      | inr req =>
          t ← tarball_path;
          open_write t req;;
          extract_tarball;;
          mret (Some true)
      end.

End PackageMethods.

(** ** A concrete build host, for running the methods *)

Module Demo.

Definition arm64 : Arch :=
  mkArch "arm64" "aarch64-linux-android" "aarch64-linux-android".

(** The revision is read from [source.properties] under the NDK root. *)
Definition read_revision (root : Path) (f : gmap string Node) : Res string :=
  match f !! Pathlib.to_str (root // "source.properties") with
  | Some (File content _) => Return content
  | _ => Raise (FileNotFoundError (Pathlib.to_str (root // "source.properties")))
  end.

(** [tar] leaves a marker in the directory it ran in. *)
Definition run_tar (cmd : list string) (cwd : Path) (f : gmap string Node)
    : Res unit * gmap string Node :=
  (Return (), <[Pathlib.to_str (cwd // ".unpacked") := File "" 420]> f).

#[local] Instance util : Util := {|
  BASE := Pathlib.of_str "/work";
  android_api_level := 24;
  target_arch := arm64;
  tar_cmd := "tar";
  parse_ndk_revision := read_revision;
  run_in_dir := run_tar;
|}.

#[local] Instance source_api : SourceApi := {|
  source_dir := λ p _, BASE // "src" // name p;
  source_get_version := λ _ _, Return "1.2.3";
|}.

(** A host with the NDK at [/opt/ndk] and an archive store that has
    nothing: every request is answered 404. *)
Definition host_with (answer : string → HttpResult) : Host := {|
  environ := {[ "ANDROID_NDK" := "/opt/ndk" ]};
  uname_sysname := "Linux";
  remote := answer;
  umask := 18;
|}.

#[local] Instance host : Host := host_with (λ _, HttpFail 404).

Definition Foo : PackageClass :=
  mkPackageClass "Foo" None
    (Some (mkSource KindURL "https://example.org/foo-1.2.3.tar.gz" None))
    [] [] false.

Definition disk : gmap string Node :=
  list_to_map [
    ("/opt/ndk", Dir);
    ("/opt/ndk/source.properties", File "21" 420);
    ("/opt/ndk/toolchains/llvm/prebuilt/linux-x86_64/bin", Dir);
    ("/work", Dir)
  ].

(** The state after [Foo()] on that disk. *)
Definition fresh : State := (__init__ Foo (mkState (instantiate Foo) disk [])).2.

Definition archive : string :=
  "/work/build/dist/foo-arm64-1.2.3-android24-ndk_21.tar.bz2".

(** The same, with the archive of [Foo] already in the distribution
    directory. *)
Definition cached : State :=
  mkState (self fresh) (<[archive := File "BZh9" 384]> (fs fresh)) (trace fresh).

(** A package that opts out of the archive store. *)
Definition Python : PackageClass :=
  mkPackageClass "Python" None
    (Some (mkSource KindVCS "https://github.com/python/cpython/" None))
    [] [] true.

Definition python : State :=
  (__init__ Python (mkState (instantiate Python) disk [])).2.

(** A store that has every archive. *)
Definition stocked : Host := host_with (λ _, Http200 "BZh9").

End Demo.


(** ** What the specification says, in its own words *)

(** The archive filename grammar of the specification:
    [{name}-{arch}-{version}-android{api_level}-ndk_{ndk_revision}.tar.bz2]. *)
Definition archiveName (pkg arch version : string) (api_level : Z)
    (ndk_revision : string) : string :=
  String.concat "" [pkg; "-"; arch; "-"; version; "-android"; pretty api_level;
                    "-ndk_"; ndk_revision; ".tar.bz2"].

(** What one enumerated Source contributes: itself, and the signature
    file when it carries a signature suffix. *)
Definition with_signature (s : Source) : list Source :=
  match sig_suffix s with
  | Some suffix =>
      if Str.truthy suffix then [s; URLSource (source_url s +:+ suffix)] else [s]
  | None => [s]
  end.

(** The objects of a package that are Sources: its source, then the
    patches that are fetched. *)
Definition declared_sources (c : PackageClass) : list Source :=
  omap id (source c :: map (λ p, match p with
                                 | RemotePatch s => Some s
                                 | LocalPatch _ => None
                                 end) (patches c)).

(** ** Reading the log *)

Definition is_stat (e : Event) : bool :=
  match e with EStat _ => true | _ => false end.

Definition is_stat_or_print (e : Event) : bool :=
  match e with EStat _ | EPrint _ => true | _ => false end.

Definition is_urlopen (e : Event) : bool :=
  match e with EUrlopen _ => true | _ => false end.

Definition is_run (e : Event) : bool :=
  match e with ERun _ _ => true | _ => false end.

(** [st] after one more call has been logged. *)
Definition logged (e : Event) (st : State) : State :=
  mkState (self st) (fs st) (trace st ++ [e]).

(** [st'] differs from [st] by log entries only, all of them accepted by
    [ok], and by the remembered toolchain. *)
Definition quiet (ok : Event → bool) (st st' : State) : Prop :=
  fs st' = fs st ∧
  klass (self st') = klass (self st) ∧
  name (self st') = name (self st) ∧
  arch (self st') = arch (self st) ∧
  env (self st') = env (self st) ∧
  ∃ l, trace st' = (trace st ++ l)%list ∧ forallb ok l = true.

Section Drivers.
Context `{Host, Util, SourceApi}.

(** Calling [fetch_tarball] [n] times in a row. *)
Fixpoint fetch_times (n : nat) : M (list (option bool)) :=
  match n with
  | O => mret []
  | S k =>
      r ← fetch_tarball;
      rs ← fetch_times k;
      mret (r :: rs)
  end.

(** Calling [init_build_env] [n] times in a row. *)
Fixpoint init_build_env_times (n : nat) : M (list bool) :=
  match n with
  | O => mret []
  | S k =>
      r ← init_build_env;
      rs ← init_build_env_times k;
      mret (r :: rs)
  end.

End Drivers.

(** ** The rest of the module *)

(** [Source.run_in_source_dir(cmd, env=...)], which runs a command in the
    source directory; it is given the dictionary and leaves it as it is. *)
Class SourceRun := {
  run_in_source_dir :
    Package → Source → list string → gmap string EnvValue →
    gmap string Node → Res unit * gmap string Node;
}.

(** The outcome of a method that starts with an [assert]: the assertion
    fails, or the rest of the body runs. *)
Inductive Asserted (A : Type) :=
| AssertionError
| Body (r : Res A).
Arguments AssertionError {A}.
Arguments Body {A} r.

Section MoreMethods.
Context `{Host, Util, SourceApi, SourceRun}.

(** The property [filesdir]. *)
Definition filesdir (p : Package) : Path := BASE // "mk" // name p.

(** [run_with_env]: [assert isinstance(self.source, Source)], then
    [init_build_env()] and the command with [env=self.env]. *)
Definition run_with_env (cmd : list string) (st : State) : Asserted unit * State :=
  match source (klass (self st)) with
  | None => (AssertionError, st)
  | Some s =>
      match init_build_env st with
      | (Return _, st1) =>
          (Body (run_in_source_dir (self st1) s cmd (env (self st1)) (fs st1)).1,
           mkState (self st1)
             (run_in_source_dir (self st1) s cmd (env (self st1)) (fs st1)).2
             (trace st1))
      | (Raise e, st1) => (Body (Raise e), st1)
      end
  end.

End MoreMethods.

(** ** [os.path.splitext] and the enumeration of recipes *)

Module OsPath.

(** [s.rfind(c)]; [None] stands for -1. *)
Fixpoint rfind (c : ascii) (s : string) : option nat :=
  match s with
  | EmptyString => None
  | String a r =>
      match rfind c r with
      | Some i => Some (S i)
      | None => if Ascii.eqb a c then Some O else None
      end
  end.

(** [i < j] on such indices. *)
Definition index_lt (i j : option nat) : bool :=
  match j with
  | None => false
  | Some d => match i with None => true | Some s => (s <? d)%nat end
  end.

(** [i + 1]. *)
Definition index_succ (i : option nat) : nat :=
  match i with None => O | Some s => S s end.

(** [p[i:i+1] != '.']. *)
Definition not_dot_at (p : string) (i : nat) : bool :=
  match String.get i p with
  | Some c => negb (Ascii.eqb c ".")
  | None => true
  end.

(** The loop that skips leading dots; [remaining] is
    [dotIndex - filenameIndex]. *)
Fixpoint skip_leading_dots (p : string) (dotIndex remaining filenameIndex : nat)
    : string * string :=
  match remaining with
  | O => (p, "")
  | S k =>
      if not_dot_at p filenameIndex
      then (String.substring 0 dotIndex p,
            String.substring dotIndex (String.length p - dotIndex) p)
      else skip_leading_dots p dotIndex k (S filenameIndex)
  end.

(** [os.path.splitext(p)]. *)
Definition splitext (p : string) : string * string :=
  let sepIndex := rfind "/" p in
  match rfind "." p with
  | Some dotIndex =>
      if index_lt sepIndex (Some dotIndex)
      then skip_leading_dots p dotIndex (dotIndex - index_succ sepIndex)
             (index_succ sepIndex)
      else (p, "")
  | None => (p, "")
  end.

End OsPath.

(** [enumerate_packages]: [here] is the directory of the module,
    [listdir] what the operating system lists in [here/packages], in its
    order, or the error of listing it. *)
Definition enumerate_packages (here : Path) (listdir : Res (list string))
    : Res (list string) :=
  match listdir with
  | Raise e => Raise e
  | Return names =>
      Return (omap (λ entry,
                let child := here // "packages" // entry in
                let '(pkgname, ext) :=
                  OsPath.splitext (Pathlib.basename (Pathlib.to_str child)) in
                if negb (String.eqb ext ".py") then None else Some pkgname)
              names)
  end.

(** A string without a slash. *)
Fixpoint no_slash (s : string) : bool :=
  match s with
  | EmptyString => true
  | String c r => negb (Ascii.eqb c "/") && no_slash r
  end.

(** A string with a character that is not a dot. *)
Fixpoint has_non_dot (s : string) : bool :=
  match s with
  | EmptyString => false
  | String c r => negb (Ascii.eqb c ".") || has_non_dot r
  end.

(** ** More hosts and packages to run the methods on *)

Module DemoMore.

#[local] Existing Instance Demo.util.
#[local] Existing Instance Demo.source_api.

(** A host where [ANDROID_NDK] is not set. *)
Definition bare : Host := {|
  environ := ∅;
  uname_sysname := "Linux";
  remote := λ _, HttpFail 404;
  umask := 18;
|}.

(** A host that the toolchain has no binaries for. *)
Definition freebsd : Host := {|
  environ := {[ "ANDROID_NDK" := "/opt/ndk" ]};
  uname_sysname := "FreeBSD";
  remote := λ _, HttpFail 404;
  umask := 18;
|}.

(** A host that cannot reach the archive store. *)
Definition offline : Host := Demo.host_with (λ _, Unreachable "no route to host").

(** A build host that publishes to [/mnt/archives]. *)
Definition publisher : Host := {|
  environ := {[ "ANDROID_NDK" := "/opt/ndk";
                "PYTHON3_ANDROID_TARBALL_DEST" := "/mnt/archives" ]};
  uname_sysname := "Linux";
  remote := λ _, HttpFail 404;
  umask := 63;
|}.


(** [Demo.fresh] once the toolchain has been validated. *)
Definition validated : State := (@ndk Demo.host Demo.fresh).2.

(** The command leaves a note of the compiler it was given. *)
#[local] Instance source_run : SourceRun := {|
  run_in_source_dir := λ p _ _ e f,
    (Return (),
     <["/work/src/" +:+ name p +:+ "/.cc" :=
         File (match e !! "CC" with Some (EnvStr cc) => cc | _ => "" end) 420]> f);
|}.

End DemoMore.

(** * Properties *)

(** ** Strings and paths *)

Module StrFacts.

Lemma length_app (s t : string) :
  String.length (s +:+ t) = (String.length s + String.length t)%nat.
Proof. induction s; simpl; [done | by f_equal]. Qed.

Lemma app_inj_r (s1 s2 t : string) : s1 +:+ t = s2 +:+ t → s1 = s2.
Proof.
  revert s2. induction s1 as [|a s1 IH]; intros [|b s2] E; simpl in *.
  - reflexivity.
  - exfalso. apply (f_equal String.length) in E.
    rewrite ?length_app in E; simpl in E; rewrite ?length_app in E; lia.
  - exfalso. apply (f_equal String.length) in E.
    rewrite ?length_app in E; simpl in E; rewrite ?length_app in E; lia.
  - injection E as -> E. f_equal. by apply IH.
Qed.

Lemma app_inj_l (s t1 t2 : string) : s +:+ t1 = s +:+ t2 → t1 = t2.
Proof. induction s; simpl; intros E; [done | injection E; auto]. Qed.

End StrFacts.

Example joinpath_ex :
  Pathlib.to_str (Pathlib.of_str "/opt/ndk/" // "toolchains" // "llvm")
  = "/opt/ndk/toolchains/llvm".
Proof. reflexivity. Qed.

Example basename_ex : Pathlib.basename "/build/dist/foo.tar.bz2" = "foo.tar.bz2".
Proof. reflexivity. Qed.

Example lower_ex : Str.lower "OpenSSL" = "openssl".
Proof. reflexivity. Qed.

Example pretty_ex : pretty 24 = "24".
Proof. reflexivity. Qed.

Example demo_tarball_name :
  (@tarball_name Demo.host Demo.util Demo.source_api Demo.fresh).1
  = Return "foo-arm64-1.2.3-android24-ndk_21.tar.bz2".
Proof. vm_compute. reflexivity. Qed.

Example demo_fetch_miss :
  (@fetch_tarball Demo.host Demo.util Demo.source_api Demo.fresh).1
  = Return (Some false).
Proof. vm_compute. reflexivity. Qed.

Example demo_init_env :
  (@init_build_env Demo.util Demo.fresh).1
  = Raise (AttributeError "'Foo' object has no attribute 'unified_toolchain'").
Proof. vm_compute. reflexivity. Qed.

(** ** The monad and the log *)

Lemma bind_unfold {A B} (m : M A) (k : A → M B) (st : State) :
  (m ≫= k) st
  = match m st with
    | (Return a, st') => k a st'
    | (Raise e, st') => (Raise e, st')
    end.
Proof. reflexivity. Qed.

Ltac run :=
  repeat first
    [ progress rewrite ?bind_unfold
    | progress unfold mret, M_ret, get_self, get_fs, set_self, set_fs, emit,
        raise, lift_res, print, getenv
    | progress simpl ].

Lemma state_eta (st : State) : mkState (self st) (fs st) (trace st) = st.
Proof. by destruct st. Qed.

Lemma quiet_refl ok st : quiet ok st st.
Proof.
  repeat split. exists []. by rewrite app_nil_r.
Qed.

Lemma quiet_trans ok st1 st2 st3 :
  quiet ok st1 st2 → quiet ok st2 st3 → quiet ok st1 st3.
Proof.
  intros (Hf & Hk & Hn & Ha & He & l & Hl & Hok)
         (Hf' & Hk' & Hn' & Ha' & He' & l' & Hl' & Hok').
  repeat split; try congruence.
  exists (l ++ l')%list. split.
  - by rewrite Hl', Hl, app_assoc.
  - by rewrite forallb_app, Hok, Hok'.
Qed.

Lemma quiet_weaken (ok ok' : Event → bool) st st' :
  (∀ e, ok e = true → ok' e = true) → quiet ok st st' → quiet ok' st st'.
Proof.
  intros Himp (Hf & Hk & Hn & Ha & He & l & Hl & Hok).
  repeat split; try done. exists l. split; [done|].
  apply forallb_forall. intros e He'. apply Himp.
  by apply (proj1 (forallb_forall _ _) Hok).
Qed.

Lemma quiet_emit ok st e :
  ok e = true → quiet ok st (mkState (self st) (fs st) (trace st ++ [e])).
Proof.
  intros Hok. repeat split. exists [e]. split; [done|]. simpl. by rewrite Hok.
Qed.

Section Facts.
Context `{Host, Util, SourceApi}.

Lemma path_exists_run (p : Path) (st : State) :
  path_exists p st
  = (Return (bool_decide (is_Some (fs st !! Pathlib.to_str p))),
     mkState (self st) (fs st) (trace st ++ [EStat (Pathlib.to_str p)])).
Proof. reflexivity. Qed.

(** ** Toolchain validation *)

Lemma check_ndk_quiet (st : State) : quiet is_stat st (_check_ndk st).2.
Proof.
  unfold _check_ndk. run.
  destruct (truthy_opt (environ !! "ANDROID_NDK")); simpl; [|apply quiet_refl].
  destruct (bool_decide (Str.lower uname_sysname ∈ ["linux"; "darwin"])); simpl;
    [|apply quiet_refl].
  run. rewrite ?path_exists_run. simpl.
  destruct (bool_decide _); simpl.
  - repeat split. by exists [EStat (Pathlib.to_str
      (Pathlib.of_str (default "" (environ !! "ANDROID_NDK")) // "toolchains" // "llvm"
       // "prebuilt" // (Str.lower uname_sysname +:+ "-x86_64") // "bin"))].
  - repeat split. by exists [EStat (Pathlib.to_str
      (Pathlib.of_str (default "" (environ !! "ANDROID_NDK")) // "toolchains" // "llvm"
       // "prebuilt" // (Str.lower uname_sysname +:+ "-x86_64") // "bin"))].
Qed.

Lemma check_ndk_returns (st st' : State) (u : unit) :
  _check_ndk st = (Return u, st') → is_Some (_ndk (self st')).
Proof.
  unfold _check_ndk. run.
  destruct (truthy_opt (environ !! "ANDROID_NDK")); simpl; [|done].
  destruct (bool_decide (Str.lower uname_sysname ∈ ["linux"; "darwin"])); simpl;
    [|done].
  run. rewrite ?path_exists_run. simpl.
  destruct (bool_decide _); simpl; [|done].
  intros [= _ <-]. simpl. eauto.
Qed.

Lemma ndk_quiet (st : State) : quiet is_stat st (ndk st).2.
Proof.
  unfold ndk. run.
  destruct (bool_decide (_ndk (self st) = None)).
  - pose proof (check_ndk_quiet st) as Hq.
    destruct (_check_ndk st) as [[u|e] st1]; simpl in *; done.
  - simpl. apply quiet_refl.
Qed.

Lemma ndk_returns (st st' : State) (r : option Path) :
  ndk st = (Return r, st') → r = _ndk (self st') ∧ is_Some (_ndk (self st')).
Proof.
  unfold ndk. run.
  destruct (bool_decide (_ndk (self st) = None)) eqn:E.
  - destruct (_check_ndk st) as [[u|e] st1] eqn:E1; simpl; [|done].
    intros [= <- <-]. split; [done|]. by eapply check_ndk_returns.
  - simpl. intros [= <- <-]. split; [done|].
    apply bool_decide_eq_false in E. by destruct (_ndk (self st)); eauto.
Qed.

Lemma ndk_cached (st : State) (root : Path) :
  _ndk (self st) = Some root → ndk st = (Return (Some root), st).
Proof.
  intros E. unfold ndk. run. rewrite E. run. by rewrite E.
Qed.

Lemma get_version_state (st : State) : (get_version st).2 = st.
Proof.
  unfold get_version. run.
  destruct (truthy_opt _); simpl; [done|].
  destruct (source (klass (self st))) as [s|]; run; [|done].
  by destruct st.
Qed.

End Facts.

(** ** The archive name *)

Lemma archiveName_fstring (n a v : string) (l : Z) (r : string) :
  archiveName n a v l r
  = n +:+ "-" +:+ a +:+ "-" +:+ v +:+ "-android" +:+ pretty l +:+ "-ndk_" +:+ r
    +:+ ".tar.bz2".
Proof. reflexivity. Qed.

Lemma archiveName_name (n n' a v : string) (l : Z) (r : string) :
  archiveName n a v l r = archiveName n' a v l r → n = n'.
Proof. rewrite !archiveName_fstring. apply StrFacts.app_inj_r. Qed.

Lemma archiveName_arch (n a a' v : string) (l : Z) (r : string) :
  archiveName n a v l r = archiveName n a' v l r → a = a'.
Proof.
  rewrite !archiveName_fstring. intros E.
  apply StrFacts.app_inj_l, StrFacts.app_inj_l in E.
  by apply StrFacts.app_inj_r in E.
Qed.

Lemma archiveName_version (n a v v' : string) (l : Z) (r : string) :
  archiveName n a v l r = archiveName n a v' l r → v = v'.
Proof.
  rewrite !archiveName_fstring. intros E.
  do 4 apply StrFacts.app_inj_l in E.
  by apply StrFacts.app_inj_r in E.
Qed.

Lemma archiveName_api_level (n a v : string) (l l' : Z) (r : string) :
  archiveName n a v l r = archiveName n a v l' r → l = l'.
Proof.
  rewrite !archiveName_fstring. intros E.
  do 6 apply StrFacts.app_inj_l in E.
  apply StrFacts.app_inj_r in E.
  by apply (inj pretty) in E.
Qed.

Lemma archiveName_ndk_revision (n a v : string) (l : Z) (r r' : string) :
  archiveName n a v l r = archiveName n a v l r' → r = r'.
Proof.
  rewrite !archiveName_fstring. intros E.
  do 8 apply StrFacts.app_inj_l in E.
  by apply StrFacts.app_inj_r in E.
Qed.

Section NameFacts.
Context `{Host, Util, SourceApi}.

(** [tarball_name], step by step. *)
Lemma tarball_name_run (st : State) :
  tarball_name st
  = match ndk st with
    | (Return (Some root), st1) =>
        match parse_ndk_revision root (fs st1) with
        | Return rev =>
            match get_version st1 with
            | (Return v, st2) =>
                (Return (archiveName (name (self st1)) (arch (self st1)) v
                           android_api_level rev), st2)
            | (Raise e, st2) => (Raise e, st2)
            end
        | Raise e => (Raise e, st1)
        end
    | (Return None, st1) =>
        (Raise (CollaboratorError "parse_ndk_revision(None)"), st1)
    | (Raise e, st1) => (Raise e, st1)
    end.
Proof.
  unfold tarball_name. run.
  destruct (ndk st) as [[[root|]|e] st1]; run; done.
Qed.

Lemma tarball_name_quiet (st : State) : quiet is_stat st (tarball_name st).2.
Proof.
  rewrite tarball_name_run.
  pose proof (ndk_quiet st) as Hq.
  destruct (ndk st) as [[[root|]|e] st1]; simpl in *; try done.
  destruct (parse_ndk_revision root (fs st1)); simpl; try done.
  pose proof (get_version_state st1) as Hv.
  destruct (get_version st1) as [[v|e] st2]; simpl in *; by subst.
Qed.

Lemma tarball_name_returns (st st1 : State) (root : Path) (rev v : string) :
  ndk st = (Return (Some root), st1) →
  parse_ndk_revision root (fs st1) = Return rev →
  get_version st1 = (Return v, st1) →
  tarball_name st
  = (Return (archiveName (name (self st)) (arch (self st)) v android_api_level rev),
     st1).
Proof.
  intros E1 E2 E3. rewrite tarball_name_run, E1, E2, E3.
  pose proof (ndk_quiet st) as (_ & _ & Hn & Ha & _). rewrite E1 in Hn, Ha.
  simpl in *. by rewrite Hn, Ha.
Qed.

(** Conversely, a name comes only out of those three steps. *)
Lemma tarball_name_inv (st st' : State) (n : string) :
  tarball_name st = (Return n, st') →
  ∃ root rev v,
    ndk st = (Return (Some root), st') ∧
    _ndk (self st') = Some root ∧
    parse_ndk_revision root (fs st') = Return rev ∧
    get_version st' = (Return v, st') ∧
    n = archiveName (name (self st)) (arch (self st)) v android_api_level rev.
Proof.
  rewrite tarball_name_run.
  pose proof (ndk_quiet st) as (_ & _ & Hn & Ha & _).
  destruct (ndk st) as [[[root|]|e] st1] eqn:E1; simpl in *; try done.
  destruct (parse_ndk_revision root (fs st1)) as [rev|] eqn:E2; try done.
  pose proof (get_version_state st1) as Hv.
  destruct (get_version st1) as [[v|e] st2] eqn:E3; simpl in *; try done.
  subst st2. intros [= <- <-].
  exists root, rev, v. apply ndk_returns in E1 as Hr. destruct Hr as [Hr _].
  rewrite Hn, Ha. by repeat split.
Qed.

(** Once a name has been computed, computing it again gives the same
    name and changes nothing. *)
Lemma tarball_name_again (st st' : State) (n : string) :
  tarball_name st = (Return n, st') → tarball_name st' = (Return n, st').
Proof.
  intros E. pose proof (tarball_name_quiet st) as (_ & _ & Hn & Ha & _).
  rewrite E in Hn, Ha. simpl in *.
  apply tarball_name_inv in E as (root & rev & v & _ & Hr & Hp & Hv & ->).
  rewrite <- Hn, <- Ha.
  apply (tarball_name_returns st' st' root rev v); try done.
  by apply ndk_cached.
Qed.

Lemma tarball_path_run (st : State) :
  tarball_path st
  = match tarball_name st with
    | (Return n, st') => (Return (DIST_PATH // n), st')
    | (Raise e, st') => (Raise e, st')
    end.
Proof. reflexivity. Qed.

Lemma tarball_path_quiet (st : State) : quiet is_stat st (tarball_path st).2.
Proof.
  rewrite tarball_path_run. pose proof (tarball_name_quiet st).
  by destruct (tarball_name st) as [[n|e] st'].
Qed.

Lemma tarball_path_again (st st' : State) (t : Path) :
  tarball_path st = (Return t, st') → tarball_path st' = (Return t, st').
Proof.
  rewrite !tarball_path_run.
  destruct (tarball_name st) as [[n|e] st1] eqn:E; [|done].
  intros [= <- <-]. by rewrite (tarball_name_again _ _ _ E).
Qed.

End NameFacts.

Section ArchiveName.
Context `{Host, Util, SourceApi}.

(** C1. Whenever the toolchain resolves to [root], its revision parses to
    [rev] and the version resolves to [v], [tarball_name] returns the
    archive name of the five-tuple (name, architecture, [v], API level,
    [rev]) and nothing else of the state enters it. That name is exactly
    [{name}-{arch}-{version}-android{api_level}-ndk_{ndk_revision}.tar.bz2];
    changing any single component of the tuple changes it; and the package
    [Foo] with resolved version 1.2.3 on arm64, API level 24 and toolchain
    revision 21 is named [foo-arm64-1.2.3-android24-ndk_21.tar.bz2]. *)
Theorem tarball_name_grammar (st st1 : State) (root : Path) (rev v : string) :
  ndk st = (Return (Some root), st1) →
  parse_ndk_revision root (fs st1) = Return rev →
  get_version st1 = (Return v, st1) →
  tarball_name st
  = (Return (archiveName (name (self st)) (arch (self st)) v android_api_level rev),
     st1)
  ∧ (∀ n a v l r,
       archiveName n a v l r
       = n +:+ "-" +:+ a +:+ "-" +:+ v +:+ "-android" +:+ pretty l +:+ "-ndk_"
         +:+ r +:+ ".tar.bz2")
  ∧ (∀ n a v l r n', n' ≠ n → archiveName n' a v l r ≠ archiveName n a v l r)
  ∧ (∀ n a v l r a', a' ≠ a → archiveName n a' v l r ≠ archiveName n a v l r)
  ∧ (∀ n a v l r v', v' ≠ v → archiveName n a v' l r ≠ archiveName n a v l r)
  ∧ (∀ n a v l r l', l' ≠ l → archiveName n a v l' r ≠ archiveName n a v l r)
  ∧ (∀ n a v l r r', r' ≠ r → archiveName n a v l r' ≠ archiveName n a v l r)
  ∧ name (@instantiate Demo.util Demo.Foo) = "foo"
  ∧ (@tarball_name Demo.host Demo.util Demo.source_api Demo.fresh).1
    = Return "foo-arm64-1.2.3-android24-ndk_21.tar.bz2".
Proof.
  intros E1 E2 E3. split; [by apply (tarball_name_returns st st1 root)|].
  split; [apply archiveName_fstring|].
  split; [intros n a v0 l r n' Hne E; by apply archiveName_name in E|].
  split; [intros n a v0 l r a' Hne E; by apply archiveName_arch in E|].
  split; [intros n a v0 l r v' Hne E; by apply archiveName_version in E|].
  split; [intros n a v0 l r l' Hne E; by apply archiveName_api_level in E|].
  split; [intros n a v0 l r r' Hne E; by apply archiveName_ndk_revision in E|].
  split; vm_compute; reflexivity.
Qed.

End ArchiveName.

Lemma tarball_name_grammar_witness :
  @ndk Demo.host Demo.fresh
  = (Return (Some (Pathlib.of_str "/opt/ndk")), (@ndk Demo.host Demo.fresh).2)
  ∧ @parse_ndk_revision Demo.util (Pathlib.of_str "/opt/ndk")
      (fs (@ndk Demo.host Demo.fresh).2) = Return "21"
  ∧ @get_version Demo.source_api (@ndk Demo.host Demo.fresh).2
    = (Return "1.2.3", (@ndk Demo.host Demo.fresh).2)
  ∧ @tarball_name Demo.host Demo.util Demo.source_api Demo.fresh
    = (Return (archiveName "foo" "arm64" "1.2.3" 24 "21"),
       (@ndk Demo.host Demo.fresh).2).
Proof.
  assert (E1 : @ndk Demo.host Demo.fresh
    = (Return (Some (Pathlib.of_str "/opt/ndk")), (@ndk Demo.host Demo.fresh).2))
    by (vm_compute; reflexivity).
  assert (E2 : @parse_ndk_revision Demo.util (Pathlib.of_str "/opt/ndk")
      (fs (@ndk Demo.host Demo.fresh).2) = Return "21")
    by (vm_compute; reflexivity).
  assert (E3 : @get_version Demo.source_api (@ndk Demo.host Demo.fresh).2
    = (Return "1.2.3", (@ndk Demo.host Demo.fresh).2))
    by (vm_compute; reflexivity).
  split; [exact E1|]. split; [exact E2|]. split; [exact E3|].
  exact (proj1 (@tarball_name_grammar Demo.host Demo.util Demo.source_api
                  Demo.fresh _ _ _ _ E1 E2 E3)).
Defined.

(** ** Toolchain validation: the missing binary directory *)

Section Toolchain.
Context `{Host, Util, SourceApi}.

(** C5. With a toolchain root named by [ANDROID_NDK] on a supported host,
    when [root/toolchains/llvm/prebuilt/{host}-x86_64/bin] does not exist
    [_check_ndk] raises the error whose message names the minimum
    revision, r19. Nothing but one [exists] call has happened by then:
    the [env] dictionary holds what it held, no toolchain root is
    remembered and no file has changed; the property [ndk] of a package
    that has no toolchain yet raises the same error. *)
Theorem check_ndk_missing_bin_dir (st : State) (root : string) :
  environ !! "ANDROID_NDK" = Some root →
  root ≠ "" →
  Str.lower uname_sysname ∈ ["linux"; "darwin"] →
  fs st !! Pathlib.to_str
    (Pathlib.of_str root // "toolchains" // "llvm" // "prebuilt"
     // (Str.lower uname_sysname +:+ "-x86_64") // "bin") = None →
  let bin := Pathlib.of_str root // "toolchains" // "llvm" // "prebuilt"
             // (Str.lower uname_sysname +:+ "-x86_64") // "bin" in
  let st' := mkState (set_unified_toolchain (Some bin) (self st)) (fs st)
               (trace st ++ [EStat (Pathlib.to_str bin)]) in
  _check_ndk st = (Raise (Exception "Requires Android NDK r19 or above"), st')
  ∧ env (self st') = env (self st)
  ∧ _ndk (self st') = _ndk (self st)
  ∧ fs st' = fs st
  ∧ (_ndk (self st) = None →
     ndk st = (Raise (Exception "Requires Android NDK r19 or above"), st')).
Proof.
  intros Henv Hroot Hhost Hmissing bin st'.
  assert (E : _check_ndk st
              = (Raise (Exception "Requires Android NDK r19 or above"), st')).
  { assert (Ht : Str.truthy root = true) by (by destruct root).
    unfold _check_ndk. run. rewrite Henv. simpl. rewrite Ht. simpl.
    rewrite (bool_decide_eq_true_2 _ Hhost). run.
    rewrite Hmissing.
    rewrite bool_decide_eq_false_2; [done|]. by intros [x Hx]. }
  split; [exact E|]. repeat split.
  intros Hnone. unfold ndk. run. rewrite Hnone. simpl. by rewrite E.
Qed.

End Toolchain.

Lemma check_ndk_missing_bin_dir_witness :
  @environ Demo.host !! "ANDROID_NDK" = Some "/opt/ndk"
  ∧ "/opt/ndk" ≠ ""
  ∧ Str.lower (@uname_sysname Demo.host) ∈ ["linux"; "darwin"]
  ∧ (∅ : gmap string Node) !! "/opt/ndk/toolchains/llvm/prebuilt/linux-x86_64/bin"
    = None
  ∧ @_check_ndk Demo.host (mkState (@instantiate Demo.util Demo.Foo) ∅ [])
    = (Raise (Exception "Requires Android NDK r19 or above"),
       mkState
         (set_unified_toolchain
            (Some (Pathlib.of_str "/opt/ndk/toolchains/llvm/prebuilt/linux-x86_64/bin"))
            (@instantiate Demo.util Demo.Foo))
         ∅ [EStat "/opt/ndk/toolchains/llvm/prebuilt/linux-x86_64/bin"]).
Proof.
  assert (E1 : @environ Demo.host !! "ANDROID_NDK" = Some "/opt/ndk")
    by (vm_compute; reflexivity).
  assert (E2 : "/opt/ndk" ≠ "") by discriminate.
  assert (E3 : Str.lower (@uname_sysname Demo.host) ∈ ["linux"; "darwin"])
    by (apply (bool_decide_unpack _); vm_compute; exact I).
  assert (E4 : fs (mkState (@instantiate Demo.util Demo.Foo) ∅ []) !! Pathlib.to_str
    (Pathlib.of_str "/opt/ndk" // "toolchains" // "llvm" // "prebuilt"
     // (Str.lower (@uname_sysname Demo.host) +:+ "-x86_64") // "bin") = None)
    by (vm_compute; reflexivity).
  split; [exact E1|]. split; [exact E2|]. split; [exact E3|].
  split; [exact E4|].
  exact (proj1 (@check_ndk_missing_bin_dir Demo.host
                  (mkState (@instantiate Demo.util Demo.Foo) ∅ []) "/opt/ndk"
                  E1 E2 E3 E4)).
Defined.

(** ** The build environment *)

Section BuildEnv.
Context `{Host, Util, SourceApi}.

Lemma mkdir_self (p : Path) (st : State) : self (mkdir p st).2 = self st.
Proof.
  unfold mkdir. run.
  by destruct (mkdir_chain (anchored p) [] (parts p) (fs st)).
Qed.

Lemma init_self (c : PackageClass) (st st' : State) :
  __init__ c st = (Return (), st') → self st' = instantiate c.
Proof.
  unfold __init__. run.
  pose proof (mkdir_self DIST_PATH
    (mkState (instantiate c) (fs st) (trace st))) as E1.
  destruct (mkdir DIST_PATH _) as [[[]|e] st1]; run; [|done].
  pose proof (mkdir_self (destdir c) st1) as E2.
  destruct (mkdir (destdir c) st1) as [[[]|e] st2]; run; [|done].
  pose proof (mkdir_self SYSROOT st2) as E3.
  destruct (mkdir SYSROOT st2) as [[[]|e] st3]; run; [|done].
  intros [= <-]. simpl in *. congruence.
Qed.

(** With a non-empty [env], [init_build_env] does nothing. *)
Lemma init_build_env_noop (st : State) :
  env (self st) ≠ ∅ → init_build_env st = (Return false, st).
Proof.
  intros Hne. unfold init_build_env. run.
  by rewrite (bool_decide_eq_true_2 _ Hne).
Qed.

(** With an empty [env] and the toolchain directory assigned, it fills
    [env] and touches nothing else. *)
Lemma init_build_env_populates (st : State) (toolchain : Path) :
  env (self st) = ∅ →
  unified_toolchain (self st) = Some toolchain →
  ∃ e,
    init_build_env st = (Return true, mkState (set_env e (self st)) (fs st) (trace st))
    ∧ e ≠ ∅
    ∧ e !! "CC" = Some (EnvStr (Pathlib.to_str
        (toolchain // (ANDROID_TARGET target_arch +:+ pretty android_api_level))
        +:+ "-clang"))
    ∧ e !! "READELF" = Some (EnvPath
        (toolchain // (binutils_prefix target_arch +:+ "-readelf"))).
Proof.
  intros Hempty Htool. unfold init_build_env. run.
  rewrite bool_decide_eq_false_2 by (by intros Hne). rewrite Htool. run.
  eexists. split; [reflexivity|].
  rewrite Hempty. unfold dict_update, binutils. simpl.
  split; [|split].
  - intros E. apply (f_equal (λ m, m !! "READELF")) in E.
    by rewrite lookup_insert_eq, lookup_empty in E.
  - by rewrite !lookup_insert_ne, lookup_insert_eq by done.
  - by rewrite lookup_insert_eq.
Qed.

(** The first call fills [env] and returns [True]; the calls after it
    return [False] and change nothing. *)
Lemma init_build_env_once (st : State) (toolchain : Path) (n : nat) :
  env (self st) = ∅ →
  unified_toolchain (self st) = Some toolchain →
  ∃ st',
    init_build_env st = (Return true, st')
    ∧ init_build_env_times (S n) st = (Return (true :: replicate n false), st').
Proof.
  intros Hempty Htool.
  destruct (init_build_env_populates st toolchain Hempty Htool)
    as (e & E & Hne & _).
  eexists. split; [exact E|].
  simpl. run. rewrite E.
  assert (Hrest : ∀ k st1, env (self st1) ≠ ∅ →
            init_build_env_times k st1 = (Return (replicate k false), st1)).
  { induction k as [|k IH]; intros st1 Hne1; simpl; [done|].
    run. rewrite (init_build_env_noop st1 Hne1). run.
    by rewrite (IH st1 Hne1). }
  run. by rewrite Hrest.
Qed.

(** C3. On the instance that [__init__] has just built, [env] is empty
    and [unified_toolchain] has never been assigned: the first call of
    [init_build_env] raises [AttributeError], fills nothing and does not
    return [True]. *)
Theorem init_build_env_before_check_ndk (c : PackageClass) (st st' : State) :
  __init__ c st = (Return (), st') →
  env (self st') = ∅
  ∧ init_build_env st'
    = (Raise (AttributeError
               ("'" +:+ cls_name c +:+ "' object has no attribute 'unified_toolchain'")),
       st').
Proof.
  intros Hinit. apply init_self in Hinit.
  split; [by rewrite Hinit|].
  unfold init_build_env. run. rewrite ?Hinit. simpl.
  rewrite ?bool_decide_eq_false_2 by (by intros Hne).
  reflexivity.
Qed.

End BuildEnv.

Lemma init_build_env_before_check_ndk_witness :
  @__init__ Demo.util Demo.Foo (mkState (@instantiate Demo.util Demo.Foo) Demo.disk [])
  = (Return (), Demo.fresh)
  ∧ env (self Demo.fresh) = ∅
  ∧ @init_build_env Demo.util Demo.fresh
    = (Raise (AttributeError "'Foo' object has no attribute 'unified_toolchain'"),
       Demo.fresh).
Proof.
  assert (E : @__init__ Demo.util Demo.Foo
                (mkState (@instantiate Demo.util Demo.Foo) Demo.disk [])
              = (Return (), Demo.fresh)) by (vm_compute; reflexivity).
  split; [exact E|].
  exact (@init_build_env_before_check_ndk Demo.util Demo.Foo _ _ E).
Defined.

(** ** Does the source need a download? *)

Section NeedDownload.
Context `{Host, Util, SourceApi}.

(** C4. A package with a VCS source answers [True] whatever the files
    are, without looking at them; a package with a URL source looks for
    [Makefile] in its source directory and answers [True] exactly when
    it is not there. *)
Theorem need_download_by_source (st : State) (s : Source) :
  source (klass (self st)) = Some s →
  (kind s = KindVCS → need_download st = (Return true, st))
  ∧ (kind s = KindURL →
     ∃ answer,
       need_download st
       = (Return answer,
          mkState (self st) (fs st)
            (trace st ++ [EStat (Pathlib.to_str (source_dir (self st) s // "Makefile"))]))
       ∧ (answer = true ↔
          fs st !! Pathlib.to_str (source_dir (self st) s // "Makefile") = None)).
Proof.
  intros Hsrc. split; intros Hkind.
  - unfold need_download. run. rewrite Hsrc, Hkind. run. by destruct st.
  - unfold need_download. run. rewrite Hsrc, Hkind. run.
    eexists. split; [reflexivity|].
    destruct (fs st !! _) as [node|]; simpl; split; done.
Qed.

End NeedDownload.

Lemma need_download_by_source_witness :
  source (klass (self Demo.fresh))
  = Some (mkSource KindURL "https://example.org/foo-1.2.3.tar.gz" None)
  ∧ (@need_download Demo.source_api Demo.fresh).1 = Return true.
Proof.
  assert (E : source (klass (self Demo.fresh))
    = Some (mkSource KindURL "https://example.org/foo-1.2.3.tar.gz" None))
    by (vm_compute; reflexivity).
  split; [exact E|].
  destruct (proj2 (@need_download_by_source Demo.source_api Demo.fresh _ E) eq_refl)
    as (answer & Hrun & Hiff).
  rewrite Hrun. simpl. f_equal. apply Hiff. vm_compute. reflexivity.
Defined.

(** ** Publishing *)

Section Upload.
Context `{Host, Util, SourceApi}.

(** C6. With [skip_uploading] set, [upload_tarball] prints one line and
    returns [None]: no [copy2], no [chmod], the files and the package are
    what they were. *)
Theorem upload_tarball_skipped (st : State) :
  skip_uploading (klass (self st)) = true →
  upload_tarball st
  = (Return (),
     mkState (self st) (fs st)
       (trace st ++ [EPrint ("Skipping uploading for package " +:+ name (self st))])).
Proof.
  intros Hskip. unfold upload_tarball. run. by rewrite Hskip.
Qed.

Lemma fetch_tarball_opted_out (st : State) :
  skip_uploading (klass (self st)) = true →
  fetch_tarball st
  = (Return None, logged (EPrint ("Skipping fetching package " +:+ name (self st))) st).
Proof.
  intros Hskip. unfold fetch_tarball. run. by rewrite Hskip.
Qed.

(** C9. With [skip_uploading] set, [fetch_tarball] prints one line and
    returns [None]: no [exists] call, no request, no write, no [tar];
    the files and the package are what they were. *)
Theorem fetch_tarball_skipped (st : State) :
  skip_uploading (klass (self st)) = true →
  fetch_tarball st
  = (Return None,
     mkState (self st) (fs st)
       (trace st ++ [EPrint ("Skipping fetching package " +:+ name (self st))])).
Proof.
  intros Hskip. unfold fetch_tarball. run. by rewrite Hskip.
Qed.

End Upload.

(** ** The enumeration of sources *)

Lemma sources_fold (items : list (option Source)) (acc : list Source) :
  foldl sources_step acc items
  = (acc ++ flat_map with_signature (omap id items))%list.
Proof.
  revert acc. induction items as [|[s|] items IH]; intros acc; simpl.
  - by rewrite app_nil_r.
  - rewrite IH. unfold with_signature.
    destruct (sig_suffix s) as [suffix|]; simpl.
    + destruct (Str.truthy suffix); simpl; by rewrite <- ?app_assoc.
    + by rewrite <- app_assoc.
  - apply IH.
Qed.

(** C8. [sources] lists, in order, the source of the package and its
    fetched patches, each followed by a URL source for its signature file
    ([source_url + sig_suffix]) when it has a signature suffix, and by
    nothing when it has none: such a Source accounts for exactly one
    entry. The signature file of a listed Source is always listed, right
    after it. *)
Theorem sources_with_signatures (p : Package) :
  sources p = flat_map with_signature (declared_sources (klass p))
  ∧ (∀ s, sig_suffix s = None ∨ sig_suffix s = Some "" → with_signature s = [s])
  ∧ (∀ s suffix, sig_suffix s = Some suffix → suffix ≠ "" →
       with_signature s
       = [s; mkSource KindURL (source_url s +:+ suffix) None])
  ∧ (∀ s suffix,
       s ∈ declared_sources (klass p) → sig_suffix s = Some suffix → suffix ≠ "" →
       ∃ before after,
         sources p
         = (before ++ s :: URLSource (source_url s +:+ suffix) :: after)%list).
Proof.
  assert (E : sources p = flat_map with_signature (declared_sources (klass p))).
  { unfold sources, chained, declared_sources. by rewrite sources_fold. }
  split; [exact E|]. split; [|split].
  - intros s [Hs|Hs]; unfold with_signature; by rewrite Hs.
  - intros s suffix Hs Hne. unfold with_signature. rewrite Hs.
    by destruct suffix.
  - intros s suffix Hin Hs Hne. rewrite E.
    apply list_elem_of_split in Hin as (l1 & l2 & ->).
    exists (flat_map with_signature l1), (flat_map with_signature l2).
    rewrite flat_map_app. simpl. f_equal.
    unfold with_signature. rewrite Hs. by destruct suffix.
Qed.

(** ** The cache fetch *)

Arguments ndk : simpl never.
Arguments get_version : simpl never.
Arguments tarball_name : simpl never.
Arguments tarball_path : simpl never.
Arguments extract_tarball : simpl never.
Arguments open_write : simpl never.
Arguments run_in_dir_at : simpl never.

Lemma quiet_logged ok st st' e :
  quiet ok st st' → ok e = true → quiet ok st (logged e st').
Proof.
  intros Hq Hok. eapply quiet_trans; [exact Hq|]. by apply quiet_emit.
Qed.

Lemma stat_is_stat_or_print e : is_stat e = true → is_stat_or_print e = true.
Proof. by destruct e. Qed.

Section FetchFacts.
Context `{Host, Util, SourceApi}.

Lemma get_version_ext (st st2 : State) :
  self st2 = self st → fs st2 = fs st →
  (get_version st2).1 = (get_version st).1.
Proof.
  intros Hs Hf. unfold get_version. run. rewrite Hs.
  destruct (truthy_opt _); simpl; [done|].
  destruct (source (klass (self st))); run; [|done]. by rewrite Hf.
Qed.

(** A computed archive path is found again in any state with the same
    package and files, and then without any call. *)
Lemma tarball_path_stable (st st1 st2 : State) (t : Path) :
  tarball_path st = (Return t, st1) →
  self st2 = self st1 → fs st2 = fs st1 →
  tarball_path st2 = (Return t, st2).
Proof.
  rewrite !tarball_path_run. intros E Hs Hf.
  destruct (tarball_name st) as [[n|e] st0] eqn:En; [|done].
  injection E as <- <-.
  pose proof (tarball_name_quiet st) as (_ & _ & Hn & Ha & _).
  rewrite En in Hn, Ha. simpl in Hn, Ha.
  apply tarball_name_inv in En as (root & rev & v & _ & Hr & Hp & Hv & ->).
  assert (Hv2 : get_version st2 = (Return v, st2)).
  { pose proof (get_version_ext st0 st2 Hs Hf) as E1.
    pose proof (get_version_state st2) as E2.
    rewrite Hv in E1. simpl in E1.
    destruct (get_version st2) as [r s2]. simpl in *. by subst. }
  rewrite (tarball_name_returns st2 st2 root rev v); try done.
  - by rewrite Hs, Hn, Ha.
  - apply ndk_cached. by rewrite Hs.
  - by rewrite Hf.
Qed.

(** The local hit: one [exists] call, one line printed. *)
Lemma fetch_tarball_hit (st st1 : State) (t : Path) :
  skip_uploading (klass (self st)) = false →
  tarball_path st = (Return t, st1) →
  is_Some (fs st !! Pathlib.to_str t) →
  fetch_tarball st
  = (Return (Some true),
     logged (EPrint ("Skipping already downloaded " +:+ Pathlib.to_str t +:+ "..."))
       (logged (EStat (Pathlib.to_str t)) st1)).
Proof.
  intros Hskip Hpath Hex.
  pose proof (tarball_path_quiet st) as (Hf & _). rewrite Hpath in Hf. simpl in Hf.
  unfold fetch_tarball. run. rewrite Hskip. run. rewrite Hpath. run.
  rewrite Hf, (bool_decide_eq_true_2 _ Hex). run.
  rewrite (tarball_path_stable st st1 _ t Hpath); [|done..].
  run. unfold logged. simpl. by rewrite Hf.
Qed.

Lemma fetch_times_hit (n : nat) (st st1 : State) (t : Path) :
  skip_uploading (klass (self st)) = false →
  tarball_path st = (Return t, st1) →
  is_Some (fs st !! Pathlib.to_str t) →
  ∃ st', fetch_times n st = (Return (replicate n (Some true)), st')
         ∧ quiet is_stat_or_print st st'.
Proof.
  revert st st1. induction n as [|n IH]; intros st st1 Hskip Hpath Hex.
  - exists st. split; [done|]. apply quiet_refl.
  - pose proof (tarball_path_quiet st) as Hq. rewrite Hpath in Hq. simpl in Hq.
    apply (quiet_weaken _ _ _ _ stat_is_stat_or_print) in Hq.
    set (st2 := logged (EPrint ("Skipping already downloaded "
                                +:+ Pathlib.to_str t +:+ "..."))
                  (logged (EStat (Pathlib.to_str t)) st1)).
    assert (Hq2 : quiet is_stat_or_print st st2).
    { apply quiet_logged; [|done]. by apply quiet_logged. }
    destruct (IH st2 st2) as (st' & Hrun & Hq').
    + destruct Hq2 as (_ & Hk & _). by rewrite Hk.
    + by apply (tarball_path_stable st st1).
    + destruct Hq2 as (Hf & _). by rewrite Hf.
    + exists st'. split; [|by eapply quiet_trans].
      simpl. run. rewrite (fetch_tarball_hit st st1 t Hskip Hpath Hex).
      fold st2. run. by rewrite Hrun.
Qed.

End FetchFacts.

Lemma quiet_no_urlopen (st st' : State) (url : string) :
  quiet is_stat_or_print st st' →
  EUrlopen url ∈ trace st' → EUrlopen url ∈ trace st.
Proof.
  intros (_ & _ & _ & _ & _ & l & Hl & Hok). rewrite Hl, elem_of_app.
  intros [Hin|Hin]; [done|].
  apply list_elem_of_In in Hin.
  by apply (proj1 (forallb_forall _ _) Hok) in Hin.
Qed.

Lemma quiet_no_run (st st' : State) (l : list Event) (cmd : list string) (cwd : string) :
  quiet is_stat_or_print st st' →
  trace st' = (trace st ++ l)%list → ERun cmd cwd ∉ l.
Proof.
  intros (_ & _ & _ & _ & _ & l' & Hl & Hok) Hl' Hin.
  rewrite Hl in Hl'. apply app_inv_head in Hl'. subst l'.
  apply list_elem_of_In in Hin.
  by apply (proj1 (forallb_forall _ _) Hok) in Hin.
Qed.

Section Fetch.
Context `{Host, Util, SourceApi}.

(** The miss: the archive is not in the distribution directory, and the
    store is asked for it. *)
Lemma fetch_tarball_miss (st st1 : State) (t : Path) :
  skip_uploading (klass (self st)) = false →
  tarball_path st = (Return t, st1) →
  fs st !! Pathlib.to_str t = None →
  let url := ARCHIVES_ROOT +:+ Pathlib.basename (Pathlib.to_str t) in
  let asked := logged (EUrlopen url)
                 (logged (EPrint ("Downloading " +:+ url +:+ "..."))
                    (logged (EStat (Pathlib.to_str t)) st1)) in
  fetch_tarball st
  = match remote url with
    | Http200 body =>
        match open_write t body asked with
        | (Return _, st3) =>
            match extract_tarball st3 with
            | (Return _, st4) => (Return (Some true), st4)
            | (Raise e, st4) => (Raise e, st4)
            end
        | (Raise e, st3) => (Raise e, st3)
        end
    | HttpFail code =>
        if code =? 404
        then (Return (Some false),
              logged (EPrint (url +:+ " is missing. Skipping...")) asked)
        else (Raise (HTTPError code), asked)
    | Unreachable reason => (Raise (URLError reason), asked)
    end.
Proof.
  intros Hskip Hpath Hmiss url asked.
  pose proof (tarball_path_quiet st) as (Hf & _). rewrite Hpath in Hf. simpl in Hf.
  unfold fetch_tarball. run. rewrite Hskip. run. rewrite Hpath. run.
  rewrite Hf, Hmiss.
  rewrite bool_decide_eq_false_2 by (by intros [x Hx]). run.
  rewrite (tarball_path_stable st st1 _ t Hpath); [|done..]. run.
  unfold try_except, urlopen. run. fold url.
  assert (Easked : mkState (self st1) (fs st)
            (((trace st1 ++ [EStat (Pathlib.to_str t)])
              ++ [EPrint ("Downloading " +:+ url +:+ "...")]) ++ [EUrlopen url])
          = asked).
  { unfold asked, logged. simpl. by rewrite Hf. }
  destruct (remote url) as [body|code|reason]; run; rewrite ?Easked.
  - rewrite (tarball_path_stable st st1 asked t Hpath); [|done..]. run.
    destruct (open_write t body asked) as [[[]|e] st3]; run; [|done].
    by destruct (extract_tarball st3) as [[[]|e] st4].
  - destruct (code =? 404); run; by rewrite ?Easked.
  - done.
Qed.

End Fetch.

Section FetchClaims.
Context `{Host, Util, SourceApi}.

(** C2. When the archive is not in the distribution directory and the
    store answers the request with an HTTP error: on 404 [fetch_tarball]
    returns [False] after saying that the archive is missing, on any
    other code the [HTTPError] itself is raised to the caller. No file
    has changed in either case. *)
Theorem fetch_tarball_http_error (st st1 : State) (t : Path) (code : Z) :
  skip_uploading (klass (self st)) = false →
  tarball_path st = (Return t, st1) →
  fs st !! Pathlib.to_str t = None →
  remote (ARCHIVES_ROOT +:+ Pathlib.basename (Pathlib.to_str t)) = HttpFail code →
  let url := ARCHIVES_ROOT +:+ Pathlib.basename (Pathlib.to_str t) in
  let asked := logged (EUrlopen url)
                 (logged (EPrint ("Downloading " +:+ url +:+ "..."))
                    (logged (EStat (Pathlib.to_str t)) st1)) in
  (code = 404 →
   fetch_tarball st
   = (Return (Some false),
      logged (EPrint (url +:+ " is missing. Skipping...")) asked))
  ∧ (code ≠ 404 → fetch_tarball st = (Raise (HTTPError code), asked))
  ∧ fs asked = fs st.
Proof.
  intros Hskip Hpath Hmiss Hremote url asked.
  pose proof (fetch_tarball_miss st st1 t Hskip Hpath Hmiss) as E.
  cbv zeta in E. rewrite Hremote in E.
  pose proof (tarball_path_quiet st) as (Hf & _). rewrite Hpath in Hf.
  split; [|split].
  - intros ->. exact E.
  - intros Hne. by rewrite (proj2 (Z.eqb_neq code 404) Hne) in E.
  - exact Hf.
Qed.

(** C7. When the archive is already in the distribution directory,
    [fetch_tarball] returns [True]; all it has done is look at files and
    print: no request is made and no file changes. Any number of calls in
    a row do the same. *)
Theorem fetch_tarball_local_hit (st st1 : State) (t : Path) :
  skip_uploading (klass (self st)) = false →
  tarball_path st = (Return t, st1) →
  is_Some (fs st !! Pathlib.to_str t) →
  (∃ st', fetch_tarball st = (Return (Some true), st')
          ∧ quiet is_stat_or_print st st'
          ∧ ∀ url, EUrlopen url ∈ trace st' → EUrlopen url ∈ trace st)
  ∧ (∀ n, ∃ st', fetch_times n st = (Return (replicate n (Some true)), st')
                 ∧ quiet is_stat_or_print st st'
                 ∧ ∀ url, EUrlopen url ∈ trace st' → EUrlopen url ∈ trace st).
Proof.
  intros Hskip Hpath Hex. split.
  - eexists. split; [exact (fetch_tarball_hit st st1 t Hskip Hpath Hex)|].
    assert (Hq : quiet is_stat_or_print st
      (logged (EPrint ("Skipping already downloaded " +:+ Pathlib.to_str t +:+ "..."))
         (logged (EStat (Pathlib.to_str t)) st1))).
    { pose proof (tarball_path_quiet st) as Hq. rewrite Hpath in Hq. simpl in Hq.
      apply (quiet_weaken _ _ _ _ stat_is_stat_or_print) in Hq.
      apply quiet_logged; [|done]. by apply quiet_logged. }
    split; [exact Hq|]. intros url. by apply quiet_no_urlopen.
  - intros n.
    destruct (fetch_times_hit n st st1 t Hskip Hpath Hex) as (st' & Hrun & Hq).
    exists st'. split; [exact Hrun|]. split; [exact Hq|].
    intros url. by apply quiet_no_urlopen.
Qed.

End FetchClaims.

Lemma fetch_tarball_http_error_witness :
  skip_uploading (klass (self Demo.fresh)) = false
  ∧ @tarball_path Demo.host Demo.util Demo.source_api Demo.fresh
    = (Return (Pathlib.of_str Demo.archive),
       (@tarball_path Demo.host Demo.util Demo.source_api Demo.fresh).2)
  ∧ fs Demo.fresh !! Pathlib.to_str (Pathlib.of_str Demo.archive) = None
  ∧ @remote Demo.host
      (ARCHIVES_ROOT +:+ Pathlib.basename (Pathlib.to_str (Pathlib.of_str Demo.archive)))
    = HttpFail 404
  ∧ (@fetch_tarball Demo.host Demo.util Demo.source_api Demo.fresh).1
    = Return (Some false).
Proof.
  assert (E1 : skip_uploading (klass (self Demo.fresh)) = false)
    by (vm_compute; reflexivity).
  assert (E2 : @tarball_path Demo.host Demo.util Demo.source_api Demo.fresh
    = (Return (Pathlib.of_str Demo.archive),
       (@tarball_path Demo.host Demo.util Demo.source_api Demo.fresh).2))
    by (vm_compute; reflexivity).
  assert (E3 : fs Demo.fresh !! Pathlib.to_str (Pathlib.of_str Demo.archive) = None)
    by (vm_compute; reflexivity).
  assert (E4 : @remote Demo.host
      (ARCHIVES_ROOT +:+ Pathlib.basename (Pathlib.to_str (Pathlib.of_str Demo.archive)))
    = HttpFail 404) by reflexivity.
  split; [exact E1|]. split; [exact E2|]. split; [exact E3|]. split; [exact E4|].
  rewrite (proj1 (@fetch_tarball_http_error Demo.host Demo.util Demo.source_api
                    Demo.fresh _ _ 404 E1 E2 E3 E4) eq_refl).
  reflexivity.
Defined.

Lemma fetch_tarball_local_hit_witness :
  skip_uploading (klass (self Demo.cached)) = false
  ∧ @tarball_path Demo.host Demo.util Demo.source_api Demo.cached
    = (Return (Pathlib.of_str Demo.archive),
       (@tarball_path Demo.host Demo.util Demo.source_api Demo.cached).2)
  ∧ is_Some (fs Demo.cached !! Pathlib.to_str (Pathlib.of_str Demo.archive))
  ∧ ∃ st', @fetch_times Demo.host Demo.util Demo.source_api 3 Demo.cached
           = (Return [Some true; Some true; Some true], st')
           ∧ fs st' = fs Demo.cached.
Proof.
  assert (E1 : skip_uploading (klass (self Demo.cached)) = false)
    by (vm_compute; reflexivity).
  assert (E2 : @tarball_path Demo.host Demo.util Demo.source_api Demo.cached
    = (Return (Pathlib.of_str Demo.archive),
       (@tarball_path Demo.host Demo.util Demo.source_api Demo.cached).2))
    by (vm_compute; reflexivity).
  assert (E3 : is_Some (fs Demo.cached !! Pathlib.to_str (Pathlib.of_str Demo.archive)))
    by (exists (File "BZh9" 384); vm_compute; reflexivity).
  split; [exact E1|]. split; [exact E2|]. split; [exact E3|].
  destruct (proj2 (@fetch_tarball_local_hit Demo.host Demo.util Demo.source_api
                     Demo.cached _ _ E1 E2 E3) 3%nat)
    as (st' & Hrun & (Hfs & _) & _).
  exists st'. split; [exact Hrun | exact Hfs].
Defined.

(** ** Extraction into the sysroot *)

Section Extraction.
Context `{Host, Util, SourceApi}.

Lemma open_write_trace (t : Path) (data : string) (st : State) :
  trace (open_write t data st).2 = (trace st ++ [EOpenWrite (Pathlib.to_str t)])%list.
Proof.
  unfold open_write. run.
  by destruct (put_file t data _ (fs st)).
Qed.

Lemma run_in_dir_at_trace (cmd : list string) (cwd : Path) (st : State) :
  trace (run_in_dir_at cmd cwd st).2 = (trace st ++ [ERun cmd (Pathlib.to_str cwd)])%list.
Proof.
  unfold run_in_dir_at. run.
  by destruct (run_in_dir cmd cwd (fs st)).1.
Qed.

Lemma extract_tarball_trace (st : State) :
  ∃ l, trace (extract_tarball st).2 = (trace st ++ l)%list.
Proof.
  unfold extract_tarball. run.
  pose proof (tarball_path_quiet st) as (_ & _ & _ & _ & _ & l & Hl & _).
  destruct (tarball_path st) as [[t|e] st1]; simpl in *.
  - exists (l ++ [ERun [tar_cmd; "-jxf"; Pathlib.to_str t] (Pathlib.to_str SYSROOT)])%list.
    by rewrite ?run_in_dir_at_trace, Hl, app_assoc.
  - by exists l.
Qed.

(** C10. When the archive is already in the distribution directory,
    [fetch_tarball] returns [True] and [tar] has not been run: no file has
    changed, so nothing has been put into the sysroot. Whenever a call of
    [fetch_tarball] does run a command, the package fetches its archive,
    the archive was not in the distribution directory and the store has
    just answered the request for it with its content. *)
Theorem extract_only_after_download (st : State) :
  (∀ t st1,
     skip_uploading (klass (self st)) = false →
     tarball_path st = (Return t, st1) →
     is_Some (fs st !! Pathlib.to_str t) →
     ∃ st', fetch_tarball st = (Return (Some true), st')
            ∧ fs st' = fs st
            ∧ ∀ l cmd cwd, trace st' = (trace st ++ l)%list → ERun cmd cwd ∉ l)
  ∧ (∀ l cmd cwd,
       trace (fetch_tarball st).2 = (trace st ++ l)%list →
       ERun cmd cwd ∈ l →
       skip_uploading (klass (self st)) = false
       ∧ ∃ t st1 body,
           tarball_path st = (Return t, st1)
           ∧ fs st !! Pathlib.to_str t = None
           ∧ remote (ARCHIVES_ROOT +:+ Pathlib.basename (Pathlib.to_str t))
             = Http200 body
           ∧ EUrlopen (ARCHIVES_ROOT +:+ Pathlib.basename (Pathlib.to_str t)) ∈ l).
Proof.
  split.
  - intros t st1 Hskip Hpath Hex.
    eexists. split; [exact (fetch_tarball_hit st st1 t Hskip Hpath Hex)|].
    assert (Hq : quiet is_stat_or_print st
      (logged (EPrint ("Skipping already downloaded " +:+ Pathlib.to_str t +:+ "..."))
         (logged (EStat (Pathlib.to_str t)) st1))).
    { pose proof (tarball_path_quiet st) as Hq. rewrite Hpath in Hq. simpl in Hq.
      apply (quiet_weaken _ _ _ _ stat_is_stat_or_print) in Hq.
      apply quiet_logged; [|done]. by apply quiet_logged. }
    split; [by destruct Hq|].
    intros l cmd cwd Hl. by eapply quiet_no_run.
  - intros l cmd cwd Hl Hin.
    destruct (skip_uploading (klass (self st))) eqn:Hskip.
    { exfalso. rewrite (fetch_tarball_opted_out st Hskip) in Hl. simpl in Hl.
      apply app_inv_head in Hl. subst l. by apply list_elem_of_singleton in Hin. }
    split; [done|].
    pose proof (tarball_path_quiet st) as Hq.
    destruct (tarball_path st) as [[t|e] st1] eqn:Hpath; simpl in Hq.
    2:{ exfalso. revert Hl.
        unfold fetch_tarball. run. rewrite Hskip. run. rewrite Hpath. simpl.
        intros Hl.
        apply (quiet_weaken _ _ _ _ stat_is_stat_or_print) in Hq.
        by apply (quiet_no_run _ _ _ cmd cwd Hq Hl). }
    destruct (fs st !! Pathlib.to_str t) as [node|] eqn:Hfile.
    { exfalso.
      assert (Hex : is_Some (fs st !! Pathlib.to_str t)) by (rewrite Hfile; eauto).
      rewrite (fetch_tarball_hit st st1 t Hskip Hpath Hex) in Hl.
      refine (quiet_no_run _ _ _ cmd cwd _ Hl Hin).
      apply (quiet_weaken _ _ _ _ stat_is_stat_or_print) in Hq.
      apply quiet_logged; [|done]. by apply quiet_logged. }
    rewrite (fetch_tarball_miss st st1 t Hskip Hpath Hfile) in Hl.
    destruct Hq as (_ & _ & _ & _ & _ & l1 & Hl1 & Hok1).
    assert (Hstat : ERun cmd cwd ∉ l1).
    { intros Hin1. apply list_elem_of_In in Hin1.
      by apply (proj1 (forallb_forall _ _) Hok1) in Hin1. }
    exists t, st1.
    destruct (remote (ARCHIVES_ROOT +:+ Pathlib.basename (Pathlib.to_str t)))
      as [body|code|reason] eqn:Hremote.
    + exists body. split; [done|]. split; [done|]. split; [done|].
      assert (∃ l2, l = (l1 ++ [EStat (Pathlib.to_str t);
                EPrint ("Downloading " +:+ ARCHIVES_ROOT
                        +:+ Pathlib.basename (Pathlib.to_str t) +:+ "...");
                EUrlopen (ARCHIVES_ROOT +:+ Pathlib.basename (Pathlib.to_str t))]
                ++ l2)%list) as (l2 & ->).
      { match type of Hl with
        | context [open_write t body ?asked] =>
            pose proof (open_write_trace t body asked) as Hw;
            destruct (open_write t body asked) as [[[]|e] st3]
        end; simpl in Hw.
        - destruct (extract_tarball_trace st3) as (l3 & Hl3).
          exists ([EOpenWrite (Pathlib.to_str t)] ++ l3)%list.
          apply (app_inv_head (trace st)). rewrite <- Hl.
          destruct (extract_tarball st3) as [[[]|e] st4]; simpl in *;
            rewrite Hl3, Hw, Hl1; by rewrite <- !app_assoc.
        - exists [EOpenWrite (Pathlib.to_str t)].
          apply (app_inv_head (trace st)). rewrite <- Hl. simpl.
          rewrite Hw, Hl1. by rewrite <- !app_assoc. }
      rewrite !elem_of_app. right. left.
      apply list_elem_of_In. simpl. auto.
    + exfalso. destruct (code =? 404); simpl in Hl; rewrite Hl1 in Hl;
        rewrite <- ?app_assoc in Hl; apply app_inv_head in Hl; subst l;
        rewrite elem_of_app in Hin; destruct Hin as [Hin|Hin]; try done;
        apply list_elem_of_In in Hin; simpl in Hin; intuition discriminate.
    + exfalso. simpl in Hl. rewrite Hl1 in Hl.
      rewrite <- ?app_assoc in Hl. apply app_inv_head in Hl. subst l.
      rewrite elem_of_app in Hin. destruct Hin as [Hin|Hin]; try done.
      apply list_elem_of_In in Hin. simpl in Hin. intuition discriminate.
Qed.

End Extraction.

(** ** The three outcomes of a fetch, run on the concrete host *)

(** The archive is there: two [exists] calls (toolchain, archive) and one
    line; the sysroot has not been written to. *)
Example demo_fetch_hit :
  let '(r, st') := @fetch_tarball Demo.host Demo.util Demo.source_api Demo.cached in
  r = Return (Some true)
  ∧ drop (List.length (trace Demo.cached)) (trace st')
    = [EStat "/opt/ndk/toolchains/llvm/prebuilt/linux-x86_64/bin";
       EStat Demo.archive;
       EPrint ("Skipping already downloaded " +:+ Demo.archive +:+ "...")]
  ∧ fs st' !! "/work/build/sysroot/.unpacked" = None.
Proof. vm_compute. repeat split. Qed.

(** The archive is downloaded: it is written, then unpacked by [tar] in
    the sysroot. *)
Example demo_fetch_download :
  let '(r, st') := @fetch_tarball Demo.stocked Demo.util Demo.source_api Demo.fresh in
  r = Return (Some true)
  ∧ drop (List.length (trace Demo.fresh)) (trace st')
    = [EStat "/opt/ndk/toolchains/llvm/prebuilt/linux-x86_64/bin";
       EStat Demo.archive;
       EPrint ("Downloading https://dl.chyen.cc/python3-android/"
               +:+ "foo-arm64-1.2.3-android24-ndk_21.tar.bz2...");
       EUrlopen ("https://dl.chyen.cc/python3-android/"
                 +:+ "foo-arm64-1.2.3-android24-ndk_21.tar.bz2");
       EOpenWrite Demo.archive;
       ERun ["tar"; "-jxf"; Demo.archive] "/work/build/sysroot"]
  ∧ fs st' !! Demo.archive = Some (File "BZh9" 420)
  ∧ fs st' !! "/work/build/sysroot/.unpacked" = Some (File "" 420).
Proof. vm_compute. repeat split. Qed.

(** After the toolchain has been validated, the first call fills [env]
    and the second does nothing. *)
Example demo_init_build_env_twice :
  let st := (@ndk Demo.host Demo.fresh).2 in
  (@init_build_env_times Demo.util 2 st).1 = Return [true; false]
  ∧ env (self (@init_build_env_times Demo.util 2 st).2) !! "CC"
    = Some (EnvStr ("/opt/ndk/toolchains/llvm/prebuilt/linux-x86_64/bin/"
                    +:+ "aarch64-linux-android24-clang"))
  ∧ env (self (@init_build_env_times Demo.util 2 st).2) !! "RANLIB"
    = Some (EnvPath (Pathlib.of_str
        ("/opt/ndk/toolchains/llvm/prebuilt/linux-x86_64/bin/"
         +:+ "aarch64-linux-android-ranlib"))).
Proof. vm_compute. repeat split. Qed.

Lemma upload_tarball_skipped_witness :
  skip_uploading (klass (self Demo.python)) = true
  ∧ @upload_tarball Demo.host Demo.util Demo.source_api Demo.python
    = (Return (),
       logged (EPrint "Skipping uploading for package python") Demo.python).
Proof.
  assert (E : skip_uploading (klass (self Demo.python)) = true)
    by (vm_compute; reflexivity).
  split; [exact E|].
  exact (@upload_tarball_skipped Demo.host Demo.util Demo.source_api Demo.python E).
Defined.

Lemma fetch_tarball_skipped_witness :
  skip_uploading (klass (self Demo.python)) = true
  ∧ @fetch_tarball Demo.host Demo.util Demo.source_api Demo.python
    = (Return None,
       logged (EPrint "Skipping fetching package python") Demo.python).
Proof.
  assert (E : skip_uploading (klass (self Demo.python)) = true)
    by (vm_compute; reflexivity).
  split; [exact E|].
  exact (@fetch_tarball_skipped Demo.host Demo.util Demo.source_api Demo.python E).
Defined.

(** A VCS checkout is always downloaded again, [Makefile] or not, and the
    file system is not even looked at. *)
Example demo_need_download_vcs :
  let st := mkState (self Demo.python)
              (<["/work/src/python/Makefile" := File "all:" 420]> (fs Demo.python))
              [] in
  @need_download Demo.source_api st = (Return true, st).
Proof. vm_compute. reflexivity. Qed.

(** The name determines each component given the other four, not the
    whole tuple: a hyphen can move between two neighbours. *)
Remark archiveName_two_components :
  archiveName "a-b" "c" "1.0" 24 "21" = archiveName "a" "b-c" "1.0" 24 "21".
Proof. reflexivity. Qed.

(** * Further properties of the module *)

Example splitext_ex :
  OsPath.splitext "openssl.py" = ("openssl", ".py")
  ∧ OsPath.splitext "archive.tar.bz2" = ("archive.tar", ".bz2")
  ∧ OsPath.splitext ".py" = (".py", "")
  ∧ OsPath.splitext "...py" = ("...py", "")
  ∧ OsPath.splitext "a.d/README" = ("a.d/README", "")
  ∧ OsPath.splitext "a.d/.x.py" = ("a.d/.x", ".py")
  ∧ OsPath.splitext "" = ("", "").
Proof. repeat split. Qed.

Example enumerate_packages_ex :
  enumerate_packages (Pathlib.of_str "/work/pybuild")
    (Return ["zlib.py"; "__pycache__"; "__init__.py"; "openssl.py"; "notes.txt";
             "python.pyc"; ".py"])
  = Return ["zlib"; "__init__"; "openssl"].
Proof. reflexivity. Qed.

(** ** Toolchain validation: the other outcomes *)

Section ToolchainMore.
Context `{Host, Util, SourceApi}.

Lemma check_ndk_unset (st : State) :
  truthy_opt (environ !! "ANDROID_NDK") = false →
  _check_ndk st = (Raise (Exception "Requires environment variable $ANDROID_NDK"), st).
Proof.
  intros Hfalsy. unfold _check_ndk. run. rewrite Hfalsy. simpl. by destruct st.
Qed.

Lemma ndk_raises (st st' : State) (e : exn) :
  _ndk (self st) = None → _check_ndk st = (Raise e, st') → ndk st = (Raise e, st').
Proof.
  intros Hnone E. unfold ndk. run. rewrite Hnone. simpl. by rewrite E.
Qed.

Lemma tarball_path_raises (st st' : State) (e : exn) :
  ndk st = (Raise e, st') → tarball_path st = (Raise e, st').
Proof.
  intros E. by rewrite tarball_path_run, tarball_name_run, E.
Qed.

Lemma fetch_tarball_raises (st st' : State) (e : exn) :
  skip_uploading (klass (self st)) = false →
  tarball_path st = (Raise e, st') → fetch_tarball st = (Raise e, st').
Proof.
  intros Hskip E. unfold fetch_tarball. run. rewrite Hskip. run. by rewrite E.
Qed.

(** X1. Without [ANDROID_NDK] (unset, or set to the empty string)
    [_check_ndk] raises [Requires environment variable $ANDROID_NDK] and
    has done nothing at all: no file is looked at and nothing is assigned.
    A package without a remembered toolchain then fails the same way when
    its [ndk], its archive name or its cached archive is asked for, before
    any request is made. *)
Theorem check_ndk_without_variable (st : State) :
  environ !! "ANDROID_NDK" = None ∨ environ !! "ANDROID_NDK" = Some "" →
  let err := Exception "Requires environment variable $ANDROID_NDK" in
  _check_ndk st = (Raise err, st)
  ∧ (_ndk (self st) = None →
     ndk st = (Raise err, st)
     ∧ tarball_name st = (Raise err, st)
     ∧ (skip_uploading (klass (self st)) = false →
        fetch_tarball st = (Raise err, st))).
Proof.
  intros Hvar err.
  assert (Hfalsy : truthy_opt (environ !! "ANDROID_NDK") = false)
    by (destruct Hvar as [-> | ->]; done).
  pose proof (check_ndk_unset st Hfalsy) as E.
  split; [exact E|]. intros Hnone.
  pose proof (ndk_raises st st _ Hnone E) as En.
  split; [exact En|]. split.
  - by rewrite tarball_name_run, En.
  - intros Hskip. apply fetch_tarball_raises; [done|].
    by apply tarball_path_raises.
Qed.

(** X2. On a host that is neither Linux nor Darwin [_check_ndk] raises
    [Unsupported system] followed by the lower-cased system name, whatever
    the files are, and has done nothing: the toolchain directory is not
    even computed. *)
Theorem check_ndk_unsupported_host (st : State) (root : string) :
  environ !! "ANDROID_NDK" = Some root →
  root ≠ "" →
  Str.lower uname_sysname ∉ ["linux"; "darwin"] →
  _check_ndk st
  = (Raise (Exception ("Unsupported system " +:+ Str.lower uname_sysname)), st)
  ∧ (_ndk (self st) = None →
     ndk st
     = (Raise (Exception ("Unsupported system " +:+ Str.lower uname_sysname)), st)).
Proof.
  intros Henv Hroot Hhost.
  assert (E : _check_ndk st
    = (Raise (Exception ("Unsupported system " +:+ Str.lower uname_sysname)), st)).
  { assert (Ht : Str.truthy root = true) by (by destruct root).
    unfold _check_ndk. run. rewrite Henv. simpl. rewrite Ht. simpl.
    rewrite (bool_decide_eq_false_2 _ Hhost). simpl. by destruct st. }
  split; [exact E|]. intros Hnone. by apply ndk_raises.
Qed.

Lemma check_ndk_found (st : State) (root : string) :
  environ !! "ANDROID_NDK" = Some root →
  root ≠ "" →
  Str.lower uname_sysname ∈ ["linux"; "darwin"] →
  is_Some (fs st !! Pathlib.to_str
    (Pathlib.of_str root // "toolchains" // "llvm" // "prebuilt"
     // (Str.lower uname_sysname +:+ "-x86_64") // "bin")) →
  _check_ndk st
  = (Return (),
     mkState
       (set_ndk (Some (Pathlib.of_str root))
          (set_unified_toolchain
             (Some (Pathlib.of_str root // "toolchains" // "llvm" // "prebuilt"
                    // (Str.lower uname_sysname +:+ "-x86_64") // "bin"))
             (self st)))
       (fs st)
       (trace st ++ [EStat (Pathlib.to_str
          (Pathlib.of_str root // "toolchains" // "llvm" // "prebuilt"
           // (Str.lower uname_sysname +:+ "-x86_64") // "bin"))])).
Proof.
  intros Henv Hroot Hhost Hbin.
  assert (Ht : Str.truthy root = true) by (by destruct root).
  unfold _check_ndk. run. rewrite Henv. simpl. rewrite Ht. simpl.
  rewrite (bool_decide_eq_true_2 _ Hhost). run.
  by rewrite (bool_decide_eq_true_2 _ Hbin).
Qed.

Lemma check_ndk_missing (st : State) (root : string) :
  environ !! "ANDROID_NDK" = Some root →
  root ≠ "" →
  Str.lower uname_sysname ∈ ["linux"; "darwin"] →
  fs st !! Pathlib.to_str
    (Pathlib.of_str root // "toolchains" // "llvm" // "prebuilt"
     // (Str.lower uname_sysname +:+ "-x86_64") // "bin") = None →
  _check_ndk st
  = (Raise (Exception "Requires Android NDK r19 or above"),
     mkState
       (set_unified_toolchain
          (Some (Pathlib.of_str root // "toolchains" // "llvm" // "prebuilt"
                 // (Str.lower uname_sysname +:+ "-x86_64") // "bin"))
          (self st))
       (fs st)
       (trace st ++ [EStat (Pathlib.to_str
          (Pathlib.of_str root // "toolchains" // "llvm" // "prebuilt"
           // (Str.lower uname_sysname +:+ "-x86_64") // "bin"))])).
Proof.
  intros Henv Hroot Hhost Hbin.
  assert (Ht : Str.truthy root = true) by (by destruct root).
  unfold _check_ndk. run. rewrite Henv. simpl. rewrite Ht. simpl.
  rewrite (bool_decide_eq_true_2 _ Hhost). run. rewrite Hbin.
  rewrite bool_decide_eq_false_2; [done|]. by intros [x Hx].
Qed.

(** X3. The toolchain is validated once. After the first successful
    access of [ndk], which looks at one directory, every later access by
    the same package returns the same root without any call and without
    any change, whatever the files have become: a toolchain that is
    removed afterwards goes unnoticed. *)
Theorem ndk_validated_once (st : State) (root : string) :
  environ !! "ANDROID_NDK" = Some root →
  root ≠ "" →
  Str.lower uname_sysname ∈ ["linux"; "darwin"] →
  is_Some (fs st !! Pathlib.to_str
    (Pathlib.of_str root // "toolchains" // "llvm" // "prebuilt"
     // (Str.lower uname_sysname +:+ "-x86_64") // "bin")) →
  _ndk (self st) = None →
  ∃ st1,
    ndk st = (Return (Some (Pathlib.of_str root)), st1)
    ∧ fs st1 = fs st
    ∧ env (self st1) = env (self st)
    ∧ (∀ files log,
         ndk (mkState (self st1) files log)
         = (Return (Some (Pathlib.of_str root)), mkState (self st1) files log)).
Proof.
  intros Henv Hroot Hhost Hbin Hnone.
  pose proof (check_ndk_found st root Henv Hroot Hhost Hbin) as E.
  eexists. split; [|split; [|split]].
  - unfold ndk. run. rewrite Hnone. simpl. rewrite E. reflexivity.
  - reflexivity.
  - reflexivity.
  - intros files log. by apply ndk_cached.
Qed.

(** X4. A failed validation leaves its mark. When the binary directory
    is missing, [_check_ndk] raises after it has assigned
    [unified_toolchain]; a call of [init_build_env] that follows does not
    fail: it returns [True] and the compilers of [env] point into the
    directory that does not exist. *)
Theorem init_build_env_after_failed_check (st : State) (root : string) :
  environ !! "ANDROID_NDK" = Some root →
  root ≠ "" →
  Str.lower uname_sysname ∈ ["linux"; "darwin"] →
  fs st !! Pathlib.to_str
    (Pathlib.of_str root // "toolchains" // "llvm" // "prebuilt"
     // (Str.lower uname_sysname +:+ "-x86_64") // "bin") = None →
  env (self st) = ∅ →
  let bin := Pathlib.of_str root // "toolchains" // "llvm" // "prebuilt"
             // (Str.lower uname_sysname +:+ "-x86_64") // "bin" in
  ∃ st1 e,
    _check_ndk st = (Raise (Exception "Requires Android NDK r19 or above"), st1)
    ∧ init_build_env st1
      = (Return true, mkState (set_env e (self st1)) (fs st1) (trace st1))
    ∧ e !! "CC" = Some (EnvStr (Pathlib.to_str
        (bin // (ANDROID_TARGET target_arch +:+ pretty android_api_level))
        +:+ "-clang"))
    ∧ fs st1 !! Pathlib.to_str bin = None.
Proof.
  intros Henv Hroot Hhost Hbin Hempty bin.
  pose proof (check_ndk_missing st root Henv Hroot Hhost Hbin) as E.
  eexists.
  edestruct (init_build_env_populates
    (mkState (set_unified_toolchain (Some bin) (self st)) (fs st)
       (trace st ++ [EStat (Pathlib.to_str bin)])) bin)
    as (e & Hrun & _ & Hcc & _); [done..|].
  exists e. split; [exact E|]. split; [exact Hrun|]. split; [exact Hcc|].
  exact Hbin.
Qed.

End ToolchainMore.

Lemma check_ndk_without_variable_witness :
  (@environ DemoMore.bare !! "ANDROID_NDK" = None
   ∨ @environ DemoMore.bare !! "ANDROID_NDK" = Some "")
  ∧ @fetch_tarball DemoMore.bare Demo.util Demo.source_api Demo.fresh
    = (Raise (Exception "Requires environment variable $ANDROID_NDK"), Demo.fresh).
Proof.
  assert (E : @environ DemoMore.bare !! "ANDROID_NDK" = None
              ∨ @environ DemoMore.bare !! "ANDROID_NDK" = Some "")
    by (left; reflexivity).
  split; [exact E|].
  refine (proj2 (proj2 (proj2 (@check_ndk_without_variable DemoMore.bare Demo.util
            Demo.source_api Demo.fresh E) _)) _); vm_compute; reflexivity.
Defined.

Lemma check_ndk_unsupported_host_witness :
  @environ DemoMore.freebsd !! "ANDROID_NDK" = Some "/opt/ndk"
  ∧ "/opt/ndk" ≠ ""
  ∧ (Str.lower (@uname_sysname DemoMore.freebsd) ∉ ["linux"; "darwin"])
  ∧ @_check_ndk DemoMore.freebsd Demo.fresh
    = (Raise (Exception "Unsupported system freebsd"), Demo.fresh).
Proof.
  assert (E1 : @environ DemoMore.freebsd !! "ANDROID_NDK" = Some "/opt/ndk")
    by (vm_compute; reflexivity).
  assert (E2 : "/opt/ndk" ≠ "") by discriminate.
  assert (E3 : Str.lower (@uname_sysname DemoMore.freebsd) ∉ ["linux"; "darwin"]).
  { intros Hin. apply list_elem_of_In in Hin. simpl in Hin.
    destruct Hin as [Hin|[Hin|[]]]; vm_compute in Hin; discriminate. }
  split; [exact E1|]. split; [exact E2|]. split; [exact E3|].
  exact (proj1 (@check_ndk_unsupported_host DemoMore.freebsd Demo.fresh
                  "/opt/ndk" E1 E2 E3)).
Defined.

Lemma ndk_validated_once_witness :
  @environ Demo.host !! "ANDROID_NDK" = Some "/opt/ndk"
  ∧ "/opt/ndk" ≠ ""
  ∧ Str.lower (@uname_sysname Demo.host) ∈ ["linux"; "darwin"]
  ∧ is_Some (fs Demo.fresh !! "/opt/ndk/toolchains/llvm/prebuilt/linux-x86_64/bin")
  ∧ _ndk (self Demo.fresh) = None
  ∧ ∃ st1,
      @ndk Demo.host Demo.fresh = (Return (Some (Pathlib.of_str "/opt/ndk")), st1)
      ∧ @ndk Demo.host (mkState (self st1) ∅ [])
        = (Return (Some (Pathlib.of_str "/opt/ndk")), mkState (self st1) ∅ []).
Proof.
  assert (E1 : @environ Demo.host !! "ANDROID_NDK" = Some "/opt/ndk")
    by (vm_compute; reflexivity).
  assert (E2 : "/opt/ndk" ≠ "") by discriminate.
  assert (E3 : Str.lower (@uname_sysname Demo.host) ∈ ["linux"; "darwin"])
    by (apply (bool_decide_unpack _); vm_compute; exact I).
  assert (E4 : is_Some (fs Demo.fresh !! Pathlib.to_str
    (Pathlib.of_str "/opt/ndk" // "toolchains" // "llvm" // "prebuilt"
     // (Str.lower (@uname_sysname Demo.host) +:+ "-x86_64") // "bin")))
    by (exists Dir; vm_compute; reflexivity).
  assert (E5 : _ndk (self Demo.fresh) = None) by (vm_compute; reflexivity).
  split; [exact E1|]. split; [exact E2|]. split; [exact E3|].
  split; [exact E4|]. split; [exact E5|].
  destruct (@ndk_validated_once Demo.host Demo.fresh "/opt/ndk" E1 E2 E3 E4 E5)
    as (st1 & Hrun & _ & _ & Hagain).
  exists st1. split; [exact Hrun | exact (Hagain ∅ [])].
Defined.

Lemma init_build_env_after_failed_check_witness :
  @environ Demo.host !! "ANDROID_NDK" = Some "/opt/ndk"
  ∧ "/opt/ndk" ≠ ""
  ∧ Str.lower (@uname_sysname Demo.host) ∈ ["linux"; "darwin"]
  ∧ (∅ : gmap string Node) !! "/opt/ndk/toolchains/llvm/prebuilt/linux-x86_64/bin"
    = None
  ∧ env (@instantiate Demo.util Demo.Foo) = ∅
  ∧ ∃ st1 e,
      @_check_ndk Demo.host (mkState (@instantiate Demo.util Demo.Foo) ∅ [])
      = (Raise (Exception "Requires Android NDK r19 or above"), st1)
      ∧ @init_build_env Demo.util st1
        = (Return true, mkState (set_env e (self st1)) (fs st1) (trace st1))
      ∧ e !! "CC" = Some (EnvStr
          ("/opt/ndk/toolchains/llvm/prebuilt/linux-x86_64/bin/"
           +:+ "aarch64-linux-android24-clang")).
Proof.
  assert (E1 : @environ Demo.host !! "ANDROID_NDK" = Some "/opt/ndk")
    by (vm_compute; reflexivity).
  assert (E2 : "/opt/ndk" ≠ "") by discriminate.
  assert (E3 : Str.lower (@uname_sysname Demo.host) ∈ ["linux"; "darwin"])
    by (apply (bool_decide_unpack _); vm_compute; exact I).
  assert (E4 : fs (mkState (@instantiate Demo.util Demo.Foo) ∅ []) !! Pathlib.to_str
    (Pathlib.of_str "/opt/ndk" // "toolchains" // "llvm" // "prebuilt"
     // (Str.lower (@uname_sysname Demo.host) +:+ "-x86_64") // "bin") = None)
    by (vm_compute; reflexivity).
  assert (E5 : env (self (mkState (@instantiate Demo.util Demo.Foo) ∅ [])) = ∅)
    by reflexivity.
  split; [exact E1|]. split; [exact E2|]. split; [exact E3|].
  split; [exact E4|]. split; [exact E5|].
  destruct (@init_build_env_after_failed_check Demo.host Demo.util
              (mkState (@instantiate Demo.util Demo.Foo) ∅ []) "/opt/ndk"
              E1 E2 E3 E4 E5)
    as (st1 & e & Hcheck & Hinit & Hcc & _).
  exists st1, e. split; [exact Hcheck|]. split; [exact Hinit|].
  rewrite Hcc. vm_compute. reflexivity.
Defined.

(** ** The build environment, once the toolchain directory is assigned *)

Section BuildEnvMore.
Context `{Host, Util, SourceApi, SourceRun}.

Lemma init_build_env_times_noop (k : nat) (st : State) :
  env (self st) ≠ ∅ →
  init_build_env_times k st = (Return (replicate k false), st).
Proof.
  intros Hne. induction k as [|k IH]; simpl; [done|].
  run. rewrite (init_build_env_noop st Hne). run. by rewrite IH.
Qed.

(** The dictionary [init_build_env] builds from a toolchain directory. *)
Lemma init_build_env_built (st : State) (toolchain : Path) :
  env (self st) = ∅ →
  unified_toolchain (self st) = Some toolchain →
  ∃ e,
    init_build_env st = (Return true, mkState (set_env e (self st)) (fs st) (trace st))
    ∧ dom e = list_to_set
        ["CC"; "CXX"; "CPP"; "CPPFLAGS"; "CFLAGS"; "CXXFLAGS"; "LDFLAGS";
         "PKG_CONFIG_SYSROOT_DIR"; "PKG_CONFIG_LIBDIR";
         "AR"; "AS"; "LD"; "OBJCOPY"; "OBJDUMP"; "RANLIB"; "STRIP"; "READELF"]
    ∧ (∀ prog, prog ∈ binutils →
         e !! Str.upper prog
         = Some (EnvPath (toolchain // (binutils_prefix target_arch +:+ "-" +:+ prog))))
    ∧ e !! "CFLAGS" = Some (EnvSeq ["-fPIC"])
    ∧ e !! "CXXFLAGS" = Some (EnvSeq ["-fPIC"])
    ∧ e !! "PKG_CONFIG_SYSROOT_DIR" = Some (EnvPath SYSROOT).
Proof.
  intros Hempty Htool. unfold init_build_env. run.
  rewrite bool_decide_eq_false_2 by (by intros Hne). rewrite Htool. run.
  eexists. split; [reflexivity|].
  rewrite Hempty. unfold dict_update, binutils. simpl.
  split; [|split; [|split; [|split]]].
  - rewrite !dom_insert_L, dom_empty_L.
    apply (bool_decide_unpack _). vm_compute. exact I.
  - intros prog Hin. apply list_elem_of_In in Hin. simpl in Hin.
    destruct Hin as [<-|[<-|[<-|[<-|[<-|[<-|[<-|[<-|[]]]]]]]]]; simpl;
      by rewrite ?lookup_insert_ne, lookup_insert_eq by done.
  - by rewrite !lookup_insert_ne, lookup_insert_eq by done.
  - by rewrite !lookup_insert_ne, lookup_insert_eq by done.
  - by rewrite !lookup_insert_ne, lookup_insert_eq by done.
Qed.

(** X5. Once the toolchain directory is assigned, the first call of
    [init_build_env] on an empty [env] returns [True] and only [env]
    changes; any number of calls after it return [False] and change
    nothing: the state after them is the state after the first call. *)
Theorem init_build_env_idempotent (st : State) (toolchain : Path) (n : nat) :
  env (self st) = ∅ →
  unified_toolchain (self st) = Some toolchain →
  ∃ e,
    e ≠ ∅
    ∧ init_build_env st = (Return true, mkState (set_env e (self st)) (fs st) (trace st))
    ∧ init_build_env_times (S n) st
      = (Return (true :: replicate n false),
         mkState (set_env e (self st)) (fs st) (trace st)).
Proof.
  intros Hempty Htool.
  destruct (init_build_env_populates st toolchain Hempty Htool)
    as (e & E & Hne & _).
  exists e. split; [exact Hne|]. split; [exact E|].
  simpl. run. rewrite E. run.
  by rewrite init_build_env_times_noop.
Qed.

(** X6. The dictionary that [init_build_env] builds has exactly seventeen
    variables, the same for every toolchain, architecture and API level;
    each of the eight binutils is the toolchain directory joined with
    [{binutils_prefix}-{tool}] under the upper-cased name of the tool, and
    C and C++ get the same flags. No file is touched and nothing is
    logged. *)
Theorem init_build_env_variables (st : State) (toolchain : Path) :
  env (self st) = ∅ →
  unified_toolchain (self st) = Some toolchain →
  ∃ e,
    init_build_env st = (Return true, mkState (set_env e (self st)) (fs st) (trace st))
    ∧ dom e = list_to_set
        ["CC"; "CXX"; "CPP"; "CPPFLAGS"; "CFLAGS"; "CXXFLAGS"; "LDFLAGS";
         "PKG_CONFIG_SYSROOT_DIR"; "PKG_CONFIG_LIBDIR";
         "AR"; "AS"; "LD"; "OBJCOPY"; "OBJDUMP"; "RANLIB"; "STRIP"; "READELF"]
    ∧ size e = 17%nat
    ∧ (∀ prog, prog ∈ binutils →
         e !! Str.upper prog
         = Some (EnvPath (toolchain // (binutils_prefix target_arch +:+ "-" +:+ prog))))
    ∧ e !! "CFLAGS" = e !! "CXXFLAGS".
Proof.
  intros Hempty Htool.
  destruct (init_build_env_built st toolchain Hempty Htool)
    as (e & E & Hdom & Hbin & Hc & Hcxx & _).
  exists e. split; [exact E|]. split; [exact Hdom|]. split; [|split].
  - rewrite <- size_dom, Hdom. apply (bool_decide_unpack _). vm_compute. exact I.
  - exact Hbin.
  - by rewrite Hc, Hcxx.
Qed.

(** X7. On the instance that [__init__] has just built, [run_with_env]
    runs no command: without a source the assertion fails, with one
    [init_build_env] raises [AttributeError] for [unified_toolchain]. The
    package and the files are what they were. *)
Theorem run_with_env_before_check_ndk (c : PackageClass) (st st' : State)
    (cmd : list string) :
  __init__ c st = (Return (), st') →
  run_with_env cmd st'
  = match source c with
    | None => (AssertionError, st')
    | Some _ =>
        (Body (Raise (AttributeError
           ("'" +:+ cls_name c +:+ "' object has no attribute 'unified_toolchain'"))),
         st')
    end.
Proof.
  intros Hinit. apply init_self in Hinit.
  unfold run_with_env. rewrite Hinit. simpl.
  destruct (source c) as [s|]; [|done].
  unfold init_build_env. run. rewrite Hinit. simpl.
  reflexivity.
Qed.

(** X8. With a source and the toolchain directory assigned, the first
    [run_with_env] builds [env] and hands it to the command; a second
    [run_with_env] hands the very same dictionary to its command, whatever
    the first command did to the files. *)
Theorem run_with_env_reuses_env (st : State) (s : Source) (toolchain : Path)
    (cmd1 cmd2 : list string) :
  source (klass (self st)) = Some s →
  env (self st) = ∅ →
  unified_toolchain (self st) = Some toolchain →
  ∃ e,
    let p := set_env e (self st) in
    let st1 := mkState p (run_in_source_dir p s cmd1 e (fs st)).2 (trace st) in
    e !! "CC" = Some (EnvStr (Pathlib.to_str
      (toolchain // (ANDROID_TARGET target_arch +:+ pretty android_api_level))
      +:+ "-clang"))
    ∧ run_with_env cmd1 st = (Body (run_in_source_dir p s cmd1 e (fs st)).1, st1)
    ∧ run_with_env cmd2 st1
      = (Body (run_in_source_dir p s cmd2 e (fs st1)).1,
         mkState p (run_in_source_dir p s cmd2 e (fs st1)).2 (trace st)).
Proof.
  intros Hsrc Hempty Htool.
  destruct (init_build_env_populates st toolchain Hempty Htool)
    as (e & E & Hne & Hcc & _).
  exists e. intros p st1. split; [exact Hcc|]. split.
  - unfold run_with_env. by rewrite Hsrc, E.
  - unfold run_with_env. simpl. rewrite Hsrc.
    by rewrite (init_build_env_noop st1 Hne).
Qed.

(** X9. [get_version]: a declared version that is not empty is the
    version, and the source is not asked, even when there is none; with
    no declared version, or an empty one, the answer is the source's own,
    errors included; with neither a version nor a source the call fails
    with [AttributeError]. The state never changes. *)
Theorem get_version_resolution (st : State) :
  (∀ v, version (klass (self st)) = Some v → v ≠ "" →
        get_version st = (Return v, st))
  ∧ (version (klass (self st)) = None ∨ version (klass (self st)) = Some "" →
     (∀ s, source (klass (self st)) = Some s →
           get_version st = (source_get_version s (fs st), st))
     ∧ (source (klass (self st)) = None →
        get_version st
        = (Raise (AttributeError "'NoneType' object has no attribute 'get_version'"),
           st))).
Proof.
  split.
  - intros v Hv Hne. unfold get_version. run. rewrite Hv. simpl.
    destruct v; [done|]. simpl. by destruct st.
  - intros Hfalsy.
    assert (Hf : truthy_opt (version (klass (self st))) = false)
      by (destruct Hfalsy as [-> | ->]; done).
    split.
    + intros s Hs. unfold get_version. run. rewrite Hf, Hs. run. by destruct st.
    + intros Hs. unfold get_version. run. rewrite Hf, Hs. run. by destruct st.
Qed.


End BuildEnvMore.

Lemma init_build_env_idempotent_witness :
  env (self DemoMore.validated) = ∅
  ∧ unified_toolchain (self DemoMore.validated)
    = Some (Pathlib.of_str "/opt/ndk/toolchains/llvm/prebuilt/linux-x86_64/bin")
  ∧ ∃ e,
      @init_build_env_times Demo.util 3 DemoMore.validated
      = (Return [true; false; false],
         mkState (set_env e (self DemoMore.validated)) (fs DemoMore.validated)
           (trace DemoMore.validated)).
Proof.
  assert (E1 : env (self DemoMore.validated) = ∅) by (vm_compute; reflexivity).
  assert (E2 : unified_toolchain (self DemoMore.validated)
    = Some (Pathlib.of_str "/opt/ndk/toolchains/llvm/prebuilt/linux-x86_64/bin"))
    by (vm_compute; reflexivity).
  split; [exact E1|]. split; [exact E2|].
  destruct (@init_build_env_idempotent Demo.util DemoMore.validated _ 2%nat E1 E2)
    as (e & _ & _ & Hrun).
  exists e. exact Hrun.
Defined.

Lemma init_build_env_variables_witness :
  env (self DemoMore.validated) = ∅
  ∧ unified_toolchain (self DemoMore.validated)
    = Some (Pathlib.of_str "/opt/ndk/toolchains/llvm/prebuilt/linux-x86_64/bin")
  ∧ ∃ e,
      @init_build_env Demo.util DemoMore.validated
      = (Return true,
         mkState (set_env e (self DemoMore.validated)) (fs DemoMore.validated)
           (trace DemoMore.validated))
      ∧ size e = 17%nat
      ∧ e !! "STRIP" = Some (EnvPath (Pathlib.of_str
          ("/opt/ndk/toolchains/llvm/prebuilt/linux-x86_64/bin/"
           +:+ "aarch64-linux-android-strip"))).
Proof.
  assert (E1 : env (self DemoMore.validated) = ∅) by (vm_compute; reflexivity).
  assert (E2 : unified_toolchain (self DemoMore.validated)
    = Some (Pathlib.of_str "/opt/ndk/toolchains/llvm/prebuilt/linux-x86_64/bin"))
    by (vm_compute; reflexivity).
  split; [exact E1|]. split; [exact E2|].
  destruct (@init_build_env_variables Demo.util DemoMore.validated _ E1 E2)
    as (e & Hrun & _ & Hsize & Hbin & _).
  exists e. split; [exact Hrun|]. split; [exact Hsize|].
  assert (Hin : "strip" ∈ binutils) by (apply list_elem_of_In; simpl; tauto).
  etransitivity; [exact (Hbin "strip" Hin)|]. vm_compute. reflexivity.
Defined.

Lemma run_with_env_before_check_ndk_witness :
  @__init__ Demo.util Demo.Foo (mkState (@instantiate Demo.util Demo.Foo) Demo.disk [])
  = (Return (), Demo.fresh)
  ∧ @run_with_env Demo.util DemoMore.source_run ["./configure"] Demo.fresh
    = (Body (Raise
         (AttributeError "'Foo' object has no attribute 'unified_toolchain'")),
       Demo.fresh).
Proof.
  assert (E : @__init__ Demo.util Demo.Foo
                (mkState (@instantiate Demo.util Demo.Foo) Demo.disk [])
              = (Return (), Demo.fresh)) by (vm_compute; reflexivity).
  split; [exact E|].
  exact (@run_with_env_before_check_ndk Demo.util DemoMore.source_run Demo.Foo
           _ _ ["./configure"] E).
Defined.

Lemma run_with_env_reuses_env_witness :
  source (klass (self DemoMore.validated))
  = Some (mkSource KindURL "https://example.org/foo-1.2.3.tar.gz" None)
  ∧ env (self DemoMore.validated) = ∅
  ∧ unified_toolchain (self DemoMore.validated)
    = Some (Pathlib.of_str "/opt/ndk/toolchains/llvm/prebuilt/linux-x86_64/bin")
  ∧ ∃ st1 st2,
      @run_with_env Demo.util DemoMore.source_run ["./configure"] DemoMore.validated
      = (Body (Return ()), st1)
      ∧ @run_with_env Demo.util DemoMore.source_run ["make"] st1
        = (Body (Return ()), st2)
      ∧ self st2 = self st1.
Proof.
  assert (E0 : source (klass (self DemoMore.validated))
    = Some (mkSource KindURL "https://example.org/foo-1.2.3.tar.gz" None))
    by (vm_compute; reflexivity).
  assert (E1 : env (self DemoMore.validated) = ∅) by (vm_compute; reflexivity).
  assert (E2 : unified_toolchain (self DemoMore.validated)
    = Some (Pathlib.of_str "/opt/ndk/toolchains/llvm/prebuilt/linux-x86_64/bin"))
    by (vm_compute; reflexivity).
  split; [exact E0|]. split; [exact E1|]. split; [exact E2|].
  destruct (@run_with_env_reuses_env Demo.util DemoMore.source_run
              DemoMore.validated _ _ ["./configure"] ["make"] E0 E1 E2)
    as (e & _ & Hrun1 & Hrun2).
  eexists _, _. split; [exact Hrun1|]. split; [exact Hrun2|]. reflexivity.
Defined.

(** The command of the second call is given the compiler that the first
    call put into [env]. *)
Example demo_run_with_env :
  fs (@run_with_env Demo.util DemoMore.source_run ["make"]
        (@run_with_env Demo.util DemoMore.source_run ["./configure"]
           DemoMore.validated).2).2
  !! "/work/src/foo/.cc"
  = Some (File ("/opt/ndk/toolchains/llvm/prebuilt/linux-x86_64/bin/"
                +:+ "aarch64-linux-android24-clang") 420).
Proof. vm_compute. reflexivity. Qed.

(** ** Paths: the last component *)

Module PathFacts.

Lemma split_slash_nonempty (s : string) : Str.split_slash s ≠ [].
Proof.
  induction s as [|c r IH]; simpl; [done|].
  destruct (Ascii.eqb c "/"); [done|].
  by destruct (Str.split_slash r).
Qed.

Lemma split_slash_no_slash (s : string) :
  no_slash s = true → Str.split_slash s = [s].
Proof.
  induction s as [|c r IH]; simpl; [done|].
  intros [Hc Hr]%andb_true_iff. apply negb_true_iff in Hc. rewrite Hc.
  by rewrite (IH Hr).
Qed.

Lemma split_slash_app (a b : string) :
  Str.split_slash (a +:+ String "/" b)
  = (Str.split_slash a ++ Str.split_slash b)%list.
Proof.
  induction a as [|c a IH]; simpl; [done|].
  rewrite IH. destruct (Ascii.eqb c "/"); [done|].
  pose proof (split_slash_nonempty a) as Hne.
  by destruct (Str.split_slash a).
Qed.

Lemma last_app_nonempty {A} (l1 l2 : list A) (d : A) :
  l2 ≠ [] → List.last (l1 ++ l2) d = List.last l2 d.
Proof.
  intros Hne. induction l1 as [|x l1 IH]; [done|].
  simpl. rewrite IH. destruct (l1 ++ l2)%list eqn:E; [|done].
  apply app_eq_nil in E as [_ ->]. done.
Qed.

Lemma join_snoc (ps : list string) (e : string) :
  ps ≠ [] → Str.join "/" (ps ++ [e]) = Str.join "/" ps +:+ String "/" e.
Proof.
  induction ps as [|x ps IH]; [done|]. intros _.
  destruct ps as [|y ps]; [done|].
  change (Str.join "/" ((x :: y :: ps) ++ [e]))
    with (x +:+ "/" +:+ Str.join "/" ((y :: ps) ++ [e])).
  rewrite IH by done.
  change (Str.join "/" (x :: y :: ps)) with (x +:+ "/" +:+ Str.join "/" (y :: ps)).
  generalize (Str.join "/" (y :: ps)). intros j.
  induction x as [|c x IHx]; [done|].
  change (String c x +:+ "/" +:+ j +:+ String "/" e)
    with (String c (x +:+ "/" +:+ j +:+ String "/" e)).
  by rewrite IHx.
Qed.

Lemma basename_app_slash (a b : string) :
  Pathlib.basename (a +:+ String "/" b) = Pathlib.basename b.
Proof.
  unfold Pathlib.basename. rewrite split_slash_app.
  apply last_app_nonempty, split_slash_nonempty.
Qed.

Lemma basename_no_slash (e : string) :
  no_slash e = true → Pathlib.basename e = e.
Proof.
  intros He. unfold Pathlib.basename. by rewrite split_slash_no_slash.
Qed.

Lemma no_slash_starts (e : string) :
  no_slash e = true → Str.starts_with_slash e = false.
Proof.
  destruct e as [|c e]; simpl; [done|].
  intros [Hc _]%andb_true_iff. by apply negb_true_iff in Hc.
Qed.

(** Joining a plain name to a path adds one component. *)
Lemma joinpath_name (p : Path) (e : string) :
  no_slash e = true → e ≠ "" → e ≠ "." →
  p // e = mkPath (anchored p) (parts p ++ [e]).
Proof.
  intros He Hne Hdot. unfold Pathlib.joinpath, Pathlib.of_str.
  rewrite (no_slash_starts e He), (split_slash_no_slash e He). simpl.
  unfold Pathlib.keep_part.
  rewrite (proj2 (String.eqb_neq e "") Hne), (proj2 (String.eqb_neq e ".") Hdot).
  done.
Qed.

Lemma to_str_snoc (a : bool) (ps : list string) (e : string) :
  Pathlib.to_str (mkPath a (ps ++ [e]))
  = (if a then "/" else "") +:+ Str.join "/" (ps ++ [e]).
Proof.
  unfold Pathlib.to_str. simpl. destruct a; [done|].
  destruct (ps ++ [e])%list eqn:E; [|done].
  by apply app_eq_nil in E as [_ ?].
Qed.

(** The base name of a path that ends in a plain name is that name. *)
Lemma basename_joinpath (p : Path) (e : string) :
  no_slash e = true → e ≠ "" → e ≠ "." →
  Pathlib.basename (Pathlib.to_str (p // e)) = e.
Proof.
  intros He Hne Hdot. rewrite (joinpath_name p e He Hne Hdot), to_str_snoc.
  destruct (parts p) as [|x ps] eqn:Hp.
  - change (Str.join "/" ([] ++ [e])) with e. destruct (anchored p).
    + change ("/" +:+ e) with ("" +:+ String "/" e).
      rewrite basename_app_slash. by apply basename_no_slash.
    + by apply basename_no_slash.
  - rewrite (join_snoc (x :: ps) e) by done.
    generalize (Str.join "/" (x :: ps)). intros j.
    destruct (anchored p).
    + change ("/" +:+ j +:+ String "/" e) with (("/" +:+ j) +:+ String "/" e).
      rewrite basename_app_slash. by apply basename_no_slash.
    + change ("" +:+ j +:+ String "/" e) with (j +:+ String "/" e).
      rewrite basename_app_slash. by apply basename_no_slash.
Qed.


End PathFacts.

(** ** The cache fetch: the request and the download *)

Lemma archiveName_length (n a v : string) (l : Z) (r : string) :
  (8 ≤ String.length (archiveName n a v l r))%nat.
Proof.
  rewrite archiveName_fstring, !StrFacts.length_app. simpl. lia.
Qed.

Lemma archiveName_plain (n a v : string) (l : Z) (r : string) :
  archiveName n a v l r ≠ "" ∧ archiveName n a v l r ≠ ".".
Proof.
  pose proof (archiveName_length n a v l r) as Hlen.
  split; intros E; rewrite E in Hlen; simpl in Hlen; lia.
Qed.

Section FetchMore.
Context `{Host, Util, SourceApi}.

Lemma tarball_name_plain (st st1 : State) (n : string) :
  tarball_name st = (Return n, st1) → n ≠ "" ∧ n ≠ ".".
Proof.
  intros E. apply tarball_name_inv in E as (root & rev & v & _ & _ & _ & _ & ->).
  apply archiveName_plain.
Qed.

Lemma tarball_path_of_name (st st1 : State) (n : string) :
  tarball_name st = (Return n, st1) →
  tarball_path st = (Return (DIST_PATH // n), st1).
Proof. intros E. by rewrite tarball_path_run, E. Qed.

(** X11. When the archive name has no slash, the URL that
    [fetch_tarball] asks the store for is [ARCHIVES_ROOT] followed by the
    archive name: after the [exists] call on the local path come the
    line [Downloading ...] and the request for that URL, and a 404 for it
    makes the call return [False]. *)
Theorem fetch_tarball_requests_name (st st1 : State) (n : string) :
  skip_uploading (klass (self st)) = false →
  tarball_name st = (Return n, st1) →
  no_slash n = true →
  fs st !! Pathlib.to_str (DIST_PATH // n) = None →
  (∃ l, trace (fetch_tarball st).2
        = (trace st1
           ++ [EStat (Pathlib.to_str (DIST_PATH // n));
               EPrint ("Downloading " +:+ ARCHIVES_ROOT +:+ n +:+ "...");
               EUrlopen (ARCHIVES_ROOT +:+ n)]
           ++ l)%list)
  ∧ (remote (ARCHIVES_ROOT +:+ n) = HttpFail 404 →
     (fetch_tarball st).1 = Return (Some false)).
Proof.
  intros Hskip Hname Hplain Hmiss.
  destruct (tarball_name_plain st st1 n Hname) as [Hne Hdot].
  pose proof (tarball_path_of_name st st1 n Hname) as Hpath.
  pose proof (fetch_tarball_miss st st1 _ Hskip Hpath Hmiss) as E.
  cbv zeta in E.
  rewrite (PathFacts.basename_joinpath DIST_PATH n Hplain Hne Hdot) in E.
  rewrite E. clear E.
  destruct (remote (ARCHIVES_ROOT +:+ n)) as [body|code|reason].
  - split; [|done].
    match goal with
    | |- context [open_write ?t body ?asked] =>
        pose proof (open_write_trace t body asked) as Hw;
        destruct (open_write t body asked) as [[[]|e] st3]
    end; simpl in Hw.
    + destruct (extract_tarball_trace st3) as (l3 & Hl3).
      exists ([EOpenWrite (Pathlib.to_str (DIST_PATH // n))] ++ l3)%list.
      destruct (extract_tarball st3) as [[[]|e] st4]; simpl in *;
        rewrite Hl3, Hw; by rewrite <- !app_assoc.
    + exists [EOpenWrite (Pathlib.to_str (DIST_PATH // n))]. simpl.
      rewrite Hw. by rewrite <- !app_assoc.
  - split.
    + destruct (code =? 404); simpl.
      * eexists [_]. by rewrite <- !app_assoc.
      * exists []. by rewrite <- !app_assoc.
    + by intros [= ->].
  - split; [|done]. exists []. simpl. by rewrite <- !app_assoc.
Qed.

(** X12. A failure to reach the store that is not an HTTP error is not
    caught: the [URLError] is raised to the caller after the request, and
    no file has been written. *)
Theorem fetch_tarball_unreachable (st st1 : State) (t : Path) (reason : string) :
  skip_uploading (klass (self st)) = false →
  tarball_path st = (Return t, st1) →
  fs st !! Pathlib.to_str t = None →
  remote (ARCHIVES_ROOT +:+ Pathlib.basename (Pathlib.to_str t))
  = Unreachable reason →
  let url := ARCHIVES_ROOT +:+ Pathlib.basename (Pathlib.to_str t) in
  fetch_tarball st
  = (Raise (URLError reason),
     mkState (self st1) (fs st)
       (trace st1 ++ [EStat (Pathlib.to_str t);
                      EPrint ("Downloading " +:+ url +:+ "...");
                      EUrlopen url])).
Proof.
  intros Hskip Hpath Hmiss Hremote url.
  pose proof (fetch_tarball_miss st st1 t Hskip Hpath Hmiss) as E.
  cbv zeta in E. rewrite Hremote in E. rewrite E.
  pose proof (tarball_path_quiet st) as (Hf & _). rewrite Hpath in Hf. simpl in Hf.
  unfold logged. simpl. rewrite Hf. by rewrite <- !app_assoc.
Qed.

(** X13. When the store answers with the archive, [fetch_tarball]
    writes exactly the body it received to the archive path, as a new file
    whose mode is [0o666] without the bits of the umask, and only then
    unpacks: its outcome is [True] when [extract_tarball] returns, and the
    error of [extract_tarball] otherwise. *)
Theorem fetch_tarball_download (st st1 : State) (t : Path) (body : string) :
  skip_uploading (klass (self st)) = false →
  tarball_path st = (Return t, st1) →
  fs st !! Pathlib.to_str t = None →
  fs st !! Pathlib.to_str (parent t) = Some Dir →
  remote (ARCHIVES_ROOT +:+ Pathlib.basename (Pathlib.to_str t)) = Http200 body →
  let url := ARCHIVES_ROOT +:+ Pathlib.basename (Pathlib.to_str t) in
  let written :=
    mkState (self st1)
      (<[Pathlib.to_str t := File body (Z.ldiff 438 umask)]> (fs st))
      (trace st1 ++ [EStat (Pathlib.to_str t);
                     EPrint ("Downloading " +:+ url +:+ "...");
                     EUrlopen url;
                     EOpenWrite (Pathlib.to_str t)]) in
  fetch_tarball st
  = match extract_tarball written with
    | (Return _, st') => (Return (Some true), st')
    | (Raise e, st') => (Raise e, st')
    end.
Proof.
  intros Hskip Hpath Hmiss Hparent Hremote url written.
  pose proof (fetch_tarball_miss st st1 t Hskip Hpath Hmiss) as E.
  cbv zeta in E. rewrite Hremote in E. rewrite E. clear E.
  pose proof (tarball_path_quiet st) as (Hf & _). rewrite Hpath in Hf. simpl in Hf.
  assert (Hw : open_write t body
                 (logged (EUrlopen url)
                    (logged (EPrint ("Downloading " +:+ url +:+ "..."))
                       (logged (EStat (Pathlib.to_str t)) st1)))
               = (Return (), written)).
  { unfold open_write. run. rewrite Hf, Hmiss. unfold put_file.
    rewrite Hmiss, Hparent. run. unfold written.
    by rewrite <- !app_assoc. }
  fold url. rewrite Hw.
  by destruct (extract_tarball written) as [[[]|e] st'].
Qed.

End FetchMore.

(** ** Publishing, packaging and unpacking *)

Section UploadMore.
Context `{Host, Util, SourceApi}.

(** X14. Without a destination ([PYTHON3_ANDROID_TARBALL_DEST] unset or
    empty) [upload_tarball] of a package that has not opted out returns at
    once: nothing is printed, the toolchain is not validated, no file is
    read or written. *)
Theorem upload_tarball_without_destination (st : State) :
  skip_uploading (klass (self st)) = false →
  environ !! "PYTHON3_ANDROID_TARBALL_DEST" = None
  ∨ environ !! "PYTHON3_ANDROID_TARBALL_DEST" = Some "" →
  upload_tarball st = (Return (), st).
Proof.
  intros Hskip Hdest.
  assert (Hf : truthy_opt (environ !! "PYTHON3_ANDROID_TARBALL_DEST") = false)
    by (destruct Hdest as [-> | ->]; done).
  unfold upload_tarball. run. rewrite Hskip. run. rewrite Hf. by destruct st.
Qed.


(** X16. Publishing before the archive exists fails in [copy2] with
    [FileNotFoundError] for the archive path: nothing is copied, no mode
    is changed and no file has changed. *)
Theorem upload_tarball_missing_archive (st st1 : State) (t : Path) (d : string) :
  skip_uploading (klass (self st)) = false →
  environ !! "PYTHON3_ANDROID_TARBALL_DEST" = Some d →
  d ≠ "" →
  tarball_path st = (Return t, st1) →
  fs st !! Pathlib.to_str t = None →
  upload_tarball st
  = (Raise (FileNotFoundError (Pathlib.to_str t)),
     mkState (self st1) (fs st)
       (trace st1 ++ [ECopy2 (Pathlib.to_str t) (Pathlib.to_str (Pathlib.of_str d))])).
Proof.
  intros Hskip Hdest Hd Hpath Hmiss.
  pose proof (tarball_path_quiet st) as (Hf & _). rewrite Hpath in Hf. simpl in Hf.
  assert (Ht : Str.truthy d = true) by (by destruct d).
  unfold upload_tarball. run. rewrite Hskip. run. rewrite Hdest. simpl.
  rewrite Ht. rewrite bind_unfold, Hpath. run.
  unfold copy2. run. by rewrite Hf, Hmiss.
Qed.

(** X17. Packaging and unpacking name the same file, the one
    [fetch_tarball] looks for: [create_tarball] prints one line and runs
    [tar -jcf DIST_PATH/name .] in the destination directory of the
    package, [extract_tarball] runs [tar -jxf DIST_PATH/name] in the
    sysroot; each runs that one command, and its outcome and its effect on
    the files are those of the command. *)
Theorem archive_commands (st st1 : State) (n : string) :
  tarball_name st = (Return n, st1) →
  let archive := Pathlib.to_str (DIST_PATH // n) in
  let pack := run_in_dir [tar_cmd; "-jcf"; archive; "."]
                (destdir (klass (self st))) (fs st) in
  let unpack := run_in_dir [tar_cmd; "-jxf"; archive] SYSROOT (fs st) in
  create_tarball st
  = (pack.1,
     mkState (self st1) pack.2
       (trace st1
        ++ [EPrint ("Creating " +:+ n +:+ " in " +:+ Pathlib.to_str DIST_PATH +:+ "...");
            ERun [tar_cmd; "-jcf"; archive; "."]
              (Pathlib.to_str (destdir (klass (self st))))]))
  ∧ extract_tarball st
    = (unpack.1,
       mkState (self st1) unpack.2
         (trace st1 ++ [ERun [tar_cmd; "-jxf"; archive] (Pathlib.to_str SYSROOT)])).
Proof.
  intros Hname archive pack unpack.
  pose proof (tarball_path_of_name st st1 n Hname) as Hpath.
  pose proof (tarball_name_quiet st) as (Hf & Hk & _).
  rewrite Hname in Hf, Hk. simpl in Hf, Hk.
  split.
  - unfold create_tarball. run. rewrite Hname. run.
    rewrite (tarball_path_stable st st1 _ _ Hpath); [|done..]. run.
    unfold run_in_dir_at. run. rewrite Hk, Hf. fold archive. fold pack.
    destruct pack as [[[]|e] f']; simpl; by rewrite <- !app_assoc.
  - unfold extract_tarball. run. rewrite Hpath. run.
    unfold run_in_dir_at. run. rewrite Hf. fold archive. fold unpack.
    by destruct unpack as [[[]|e] f'].
Qed.

End UploadMore.

Lemma fetch_tarball_requests_name_witness :
  skip_uploading (klass (self Demo.fresh)) = false
  ∧ @tarball_name Demo.host Demo.util Demo.source_api Demo.fresh
    = (Return "foo-arm64-1.2.3-android24-ndk_21.tar.bz2",
       (@tarball_name Demo.host Demo.util Demo.source_api Demo.fresh).2)
  ∧ no_slash "foo-arm64-1.2.3-android24-ndk_21.tar.bz2" = true
  ∧ fs Demo.fresh !! Pathlib.to_str
      (@DIST_PATH Demo.util // "foo-arm64-1.2.3-android24-ndk_21.tar.bz2") = None
  ∧ @remote Demo.host
      (ARCHIVES_ROOT +:+ "foo-arm64-1.2.3-android24-ndk_21.tar.bz2") = HttpFail 404
  ∧ (@fetch_tarball Demo.host Demo.util Demo.source_api Demo.fresh).1
    = Return (Some false).
Proof.
  assert (E1 : skip_uploading (klass (self Demo.fresh)) = false)
    by (vm_compute; reflexivity).
  assert (E2 : @tarball_name Demo.host Demo.util Demo.source_api Demo.fresh
    = (Return "foo-arm64-1.2.3-android24-ndk_21.tar.bz2",
       (@tarball_name Demo.host Demo.util Demo.source_api Demo.fresh).2))
    by (vm_compute; reflexivity).
  assert (E3 : no_slash "foo-arm64-1.2.3-android24-ndk_21.tar.bz2" = true)
    by reflexivity.
  assert (E4 : fs Demo.fresh !! Pathlib.to_str
      (@DIST_PATH Demo.util // "foo-arm64-1.2.3-android24-ndk_21.tar.bz2") = None)
    by (vm_compute; reflexivity).
  assert (E5 : @remote Demo.host
      (ARCHIVES_ROOT +:+ "foo-arm64-1.2.3-android24-ndk_21.tar.bz2") = HttpFail 404)
    by reflexivity.
  split; [exact E1|]. split; [exact E2|]. split; [exact E3|]. split; [exact E4|].
  split; [exact E5|].
  exact (proj2 (@fetch_tarball_requests_name Demo.host Demo.util Demo.source_api
                  Demo.fresh _ _ E1 E2 E3 E4) E5).
Defined.

Lemma fetch_tarball_unreachable_witness :
  skip_uploading (klass (self Demo.fresh)) = false
  ∧ @tarball_path DemoMore.offline Demo.util Demo.source_api Demo.fresh
    = (Return (Pathlib.of_str Demo.archive),
       (@tarball_path DemoMore.offline Demo.util Demo.source_api Demo.fresh).2)
  ∧ fs Demo.fresh !! Pathlib.to_str (Pathlib.of_str Demo.archive) = None
  ∧ @remote DemoMore.offline
      (ARCHIVES_ROOT +:+ Pathlib.basename (Pathlib.to_str (Pathlib.of_str Demo.archive)))
    = Unreachable "no route to host"
  ∧ (@fetch_tarball DemoMore.offline Demo.util Demo.source_api Demo.fresh).1
    = Raise (URLError "no route to host").
Proof.
  assert (E1 : skip_uploading (klass (self Demo.fresh)) = false)
    by (vm_compute; reflexivity).
  assert (E2 : @tarball_path DemoMore.offline Demo.util Demo.source_api Demo.fresh
    = (Return (Pathlib.of_str Demo.archive),
       (@tarball_path DemoMore.offline Demo.util Demo.source_api Demo.fresh).2))
    by (vm_compute; reflexivity).
  assert (E3 : fs Demo.fresh !! Pathlib.to_str (Pathlib.of_str Demo.archive) = None)
    by (vm_compute; reflexivity).
  assert (E4 : @remote DemoMore.offline
      (ARCHIVES_ROOT +:+ Pathlib.basename (Pathlib.to_str (Pathlib.of_str Demo.archive)))
    = Unreachable "no route to host") by reflexivity.
  split; [exact E1|]. split; [exact E2|]. split; [exact E3|]. split; [exact E4|].
  rewrite (@fetch_tarball_unreachable DemoMore.offline Demo.util Demo.source_api
             Demo.fresh _ _ _ E1 E2 E3 E4).
  reflexivity.
Defined.

Lemma fetch_tarball_download_witness :
  skip_uploading (klass (self Demo.fresh)) = false
  ∧ @tarball_path Demo.stocked Demo.util Demo.source_api Demo.fresh
    = (Return (Pathlib.of_str Demo.archive),
       (@tarball_path Demo.stocked Demo.util Demo.source_api Demo.fresh).2)
  ∧ fs Demo.fresh !! Pathlib.to_str (Pathlib.of_str Demo.archive) = None
  ∧ fs Demo.fresh !! Pathlib.to_str (parent (Pathlib.of_str Demo.archive)) = Some Dir
  ∧ @remote Demo.stocked
      (ARCHIVES_ROOT +:+ Pathlib.basename (Pathlib.to_str (Pathlib.of_str Demo.archive)))
    = Http200 "BZh9"
  ∧ (@fetch_tarball Demo.stocked Demo.util Demo.source_api Demo.fresh).1
    = Return (Some true)
  ∧ fs (@fetch_tarball Demo.stocked Demo.util Demo.source_api Demo.fresh).2
    !! Demo.archive = Some (File "BZh9" 420).
Proof.
  assert (E1 : skip_uploading (klass (self Demo.fresh)) = false)
    by (vm_compute; reflexivity).
  assert (E2 : @tarball_path Demo.stocked Demo.util Demo.source_api Demo.fresh
    = (Return (Pathlib.of_str Demo.archive),
       (@tarball_path Demo.stocked Demo.util Demo.source_api Demo.fresh).2))
    by (vm_compute; reflexivity).
  assert (E3 : fs Demo.fresh !! Pathlib.to_str (Pathlib.of_str Demo.archive) = None)
    by (vm_compute; reflexivity).
  assert (E4 : fs Demo.fresh !! Pathlib.to_str (parent (Pathlib.of_str Demo.archive))
               = Some Dir) by (vm_compute; reflexivity).
  assert (E5 : @remote Demo.stocked
      (ARCHIVES_ROOT +:+ Pathlib.basename (Pathlib.to_str (Pathlib.of_str Demo.archive)))
    = Http200 "BZh9") by reflexivity.
  split; [exact E1|]. split; [exact E2|]. split; [exact E3|]. split; [exact E4|].
  split; [exact E5|].
  rewrite (@fetch_tarball_download Demo.stocked Demo.util Demo.source_api
             Demo.fresh _ _ _ E1 E2 E3 E4 E5).
  split; vm_compute; reflexivity.
Defined.

Lemma upload_tarball_without_destination_witness :
  skip_uploading (klass (self Demo.fresh)) = false
  ∧ (@environ Demo.host !! "PYTHON3_ANDROID_TARBALL_DEST" = None
     ∨ @environ Demo.host !! "PYTHON3_ANDROID_TARBALL_DEST" = Some "")
  ∧ @upload_tarball Demo.host Demo.util Demo.source_api Demo.fresh
    = (Return (), Demo.fresh).
Proof.
  assert (E1 : skip_uploading (klass (self Demo.fresh)) = false)
    by (vm_compute; reflexivity).
  assert (E2 : @environ Demo.host !! "PYTHON3_ANDROID_TARBALL_DEST" = None
               ∨ @environ Demo.host !! "PYTHON3_ANDROID_TARBALL_DEST" = Some "")
    by (left; vm_compute; reflexivity).
  split; [exact E1|]. split; [exact E2|].
  exact (@upload_tarball_without_destination Demo.host Demo.util Demo.source_api
           Demo.fresh E1 E2).
Defined.


Lemma upload_tarball_missing_archive_witness :
  skip_uploading (klass (self Demo.fresh)) = false
  ∧ @environ DemoMore.publisher !! "PYTHON3_ANDROID_TARBALL_DEST" = Some "/mnt/archives"
  ∧ "/mnt/archives" ≠ ""
  ∧ @tarball_path DemoMore.publisher Demo.util Demo.source_api Demo.fresh
    = (Return (Pathlib.of_str Demo.archive),
       (@tarball_path DemoMore.publisher Demo.util Demo.source_api Demo.fresh).2)
  ∧ fs Demo.fresh !! Pathlib.to_str (Pathlib.of_str Demo.archive) = None
  ∧ (@upload_tarball DemoMore.publisher Demo.util Demo.source_api Demo.fresh).1
    = Raise (FileNotFoundError Demo.archive).
Proof.
  assert (E1 : skip_uploading (klass (self Demo.fresh)) = false)
    by (vm_compute; reflexivity).
  assert (E2 : @environ DemoMore.publisher !! "PYTHON3_ANDROID_TARBALL_DEST"
               = Some "/mnt/archives") by (vm_compute; reflexivity).
  assert (E3 : "/mnt/archives" ≠ "") by discriminate.
  assert (E4 : @tarball_path DemoMore.publisher Demo.util Demo.source_api Demo.fresh
    = (Return (Pathlib.of_str Demo.archive),
       (@tarball_path DemoMore.publisher Demo.util Demo.source_api Demo.fresh).2))
    by (vm_compute; reflexivity).
  assert (E5 : fs Demo.fresh !! Pathlib.to_str (Pathlib.of_str Demo.archive) = None)
    by (vm_compute; reflexivity).
  split; [exact E1|]. split; [exact E2|]. split; [exact E3|]. split; [exact E4|].
  split; [exact E5|].
  rewrite (@upload_tarball_missing_archive DemoMore.publisher Demo.util
             Demo.source_api Demo.fresh _ _ _ E1 E2 E3 E4 E5).
  reflexivity.
Defined.

Lemma archive_commands_witness :
  @tarball_name Demo.host Demo.util Demo.source_api Demo.fresh
  = (Return "foo-arm64-1.2.3-android24-ndk_21.tar.bz2",
     (@tarball_name Demo.host Demo.util Demo.source_api Demo.fresh).2)
  ∧ drop (List.length (trace Demo.fresh))
      (trace (@create_tarball Demo.host Demo.util Demo.source_api Demo.fresh).2)
    = [EStat "/opt/ndk/toolchains/llvm/prebuilt/linux-x86_64/bin";
       EPrint ("Creating foo-arm64-1.2.3-android24-ndk_21.tar.bz2"
               +:+ " in /work/build/dist...");
       ERun ["tar"; "-jcf"; Demo.archive; "."] "/work/build/target/foo"]
  ∧ drop (List.length (trace Demo.fresh))
      (trace (@extract_tarball Demo.host Demo.util Demo.source_api Demo.fresh).2)
    = [EStat "/opt/ndk/toolchains/llvm/prebuilt/linux-x86_64/bin";
       ERun ["tar"; "-jxf"; Demo.archive] "/work/build/sysroot"].
Proof.
  assert (E : @tarball_name Demo.host Demo.util Demo.source_api Demo.fresh
    = (Return "foo-arm64-1.2.3-android24-ndk_21.tar.bz2",
       (@tarball_name Demo.host Demo.util Demo.source_api Demo.fresh).2))
    by (vm_compute; reflexivity).
  split; [exact E|].
  destruct (@archive_commands Demo.host Demo.util Demo.source_api Demo.fresh _ _ E)
    as [Hc He].
  rewrite Hc, He. split; vm_compute; reflexivity.
Defined.

(** A version with a slash: the archive is looked for under a directory
    of the distribution directory, and the store is asked for what
    follows the last slash only. *)
Example demo_fetch_slash_in_version :
  let dated := mkPackageClass "Foo" (Some "2024/01") None [] [] false in
  let st := mkState (@instantiate Demo.util dated) Demo.disk [] in
  (@tarball_name Demo.host Demo.util Demo.source_api st).1
  = Return "foo-arm64-2024/01-android24-ndk_21.tar.bz2"
  ∧ trace (@fetch_tarball Demo.host Demo.util Demo.source_api st).2
    = [EStat "/opt/ndk/toolchains/llvm/prebuilt/linux-x86_64/bin";
       EStat "/work/build/dist/foo-arm64-2024/01-android24-ndk_21.tar.bz2";
       EPrint ("Downloading https://dl.chyen.cc/python3-android/"
               +:+ "01-android24-ndk_21.tar.bz2...");
       EUrlopen "https://dl.chyen.cc/python3-android/01-android24-ndk_21.tar.bz2";
       EPrint ("https://dl.chyen.cc/python3-android/01-android24-ndk_21.tar.bz2"
               +:+ " is missing. Skipping...")].
Proof. vm_compute. split; reflexivity. Qed.

(** ** Construction: the directories of a package *)

Lemma mkdir_chain_subseteq (a : bool) (below above : list string)
    (f f' : gmap string Node) :
  mkdir_chain a above below f = Return f' → f ⊆ f'.
Proof.
  revert above f. induction below as [|c rest IH]; intros above f; simpl.
  - by intros [= ->].
  - destruct (f !! Pathlib.to_str (mkPath a (above ++ [c]))) as [[|content mode]|] eqn:E.
    + apply IH.
    + done.
    + intros Hrun. apply IH in Hrun.
      etransitivity; [|exact Hrun]. by apply insert_subseteq.
Qed.

Lemma mkdir_chain_creates (a : bool) (below above : list string)
    (f f' : gmap string Node) :
  mkdir_chain a above below f = Return f' →
  below ≠ [] →
  f' !! Pathlib.to_str (mkPath a (above ++ below)) = Some Dir.
Proof.
  revert above f. induction below as [|c rest IH]; intros above f; [done|].
  intros Hrun _. simpl in Hrun.
  assert (∃ f1, mkdir_chain a (above ++ [c]) rest f1 = Return f'
                ∧ f1 !! Pathlib.to_str (mkPath a (above ++ [c])) = Some Dir)
    as (f1 & Hrest & Hdir).
  { destruct (f !! Pathlib.to_str (mkPath a (above ++ [c])))
      as [[|content mode]|] eqn:E; [by exists f | done |].
    eexists. split; [exact Hrun|]. by rewrite lookup_insert_eq. }
  destruct rest as [|c' rest'].
  - simpl in Hrest. by injection Hrest as <-.
  - replace (above ++ c :: c' :: rest')%list
      with ((above ++ [c]) ++ c' :: rest')%list by (by rewrite <- app_assoc).
    by apply (IH (above ++ [c])%list f1).
Qed.

(** Where every directory of the chain is already there, nothing is
    made. *)
Lemma mkdir_chain_again (a : bool) (below above : list string)
    (f f' g : gmap string Node) :
  mkdir_chain a above below f = Return f' → f' ⊆ g →
  mkdir_chain a above below g = Return g.
Proof.
  revert above f. induction below as [|c rest IH]; intros above f; [done|].
  intros Hrun Hsub. simpl in Hrun. simpl.
  assert (∃ f1, mkdir_chain a (above ++ [c]) rest f1 = Return f'
                ∧ f1 !! Pathlib.to_str (mkPath a (above ++ [c])) = Some Dir)
    as (f1 & Hrest & Hdir).
  { destruct (f !! Pathlib.to_str (mkPath a (above ++ [c])))
      as [[|content mode]|] eqn:E; [by exists f | done |].
    eexists. split; [exact Hrun|]. by rewrite lookup_insert_eq. }
  assert (Hg : g !! Pathlib.to_str (mkPath a (above ++ [c])) = Some Dir).
  { eapply lookup_weaken; [|exact Hsub].
    eapply lookup_weaken; [exact Hdir|]. by eapply mkdir_chain_subseteq. }
  rewrite Hg. by apply (IH _ f1).
Qed.

Lemma mkdir_run (p : Path) (st : State) :
  mkdir p st
  = match mkdir_chain (anchored p) [] (parts p) (fs st) with
    | Return f' =>
        (Return (), mkState (self st) f' (trace st ++ [EMkdir (Pathlib.to_str p)]))
    | Raise e =>
        (Raise e, mkState (self st) (fs st) (trace st ++ [EMkdir (Pathlib.to_str p)]))
    end.
Proof.
  unfold mkdir. run.
  by destruct (mkdir_chain (anchored p) [] (parts p) (fs st)).
Qed.

Lemma mkdir_creates (p : Path) (st st' : State) :
  mkdir p st = (Return (), st') → parts p ≠ [] →
  fs st' !! Pathlib.to_str p = Some Dir ∧ fs st ⊆ fs st'.
Proof.
  rewrite mkdir_run.
  destruct (mkdir_chain (anchored p) [] (parts p) (fs st)) as [f'|e] eqn:E; [|done].
  intros [= <-] Hne. simpl. split.
  - pose proof (mkdir_chain_creates _ _ _ _ _ E Hne) as Hdir.
    simpl in Hdir. by destruct p.
  - by eapply mkdir_chain_subseteq.
Qed.

Section InitMore.
Context `{Host, Util, SourceApi}.

Lemma three_mkdirs (pk : Package) (p1 p2 p3 : Path) (st : State) :
  (set_self (λ _, pk);; mkdir p1;; mkdir p2;; mkdir p3) st
  = match mkdir_chain (anchored p1) [] (parts p1) (fs st) with
    | Raise e =>
        (Raise e, mkState pk (fs st) (trace st ++ [EMkdir (Pathlib.to_str p1)]))
    | Return f1 =>
        match mkdir_chain (anchored p2) [] (parts p2) f1 with
        | Raise e =>
            (Raise e,
             mkState pk f1 (trace st ++ [EMkdir (Pathlib.to_str p1);
                                         EMkdir (Pathlib.to_str p2)]))
        | Return f2 =>
            match mkdir_chain (anchored p3) [] (parts p3) f2 with
            | Raise e =>
                (Raise e,
                 mkState pk f2 (trace st ++ [EMkdir (Pathlib.to_str p1);
                                             EMkdir (Pathlib.to_str p2);
                                             EMkdir (Pathlib.to_str p3)]))
            | Return f3 =>
                (Return (),
                 mkState pk f3 (trace st ++ [EMkdir (Pathlib.to_str p1);
                                             EMkdir (Pathlib.to_str p2);
                                             EMkdir (Pathlib.to_str p3)]))
            end
        end
    end.
Proof.
  rewrite bind_unfold. unfold set_self at 1. cbv beta iota.
  rewrite bind_unfold, mkdir_run. cbn [self fs trace].
  destruct (mkdir_chain (anchored p1) [] (parts p1) (fs st)) as [f1|e]; [|done].
  rewrite bind_unfold, mkdir_run. cbn [self fs trace].
  destruct (mkdir_chain (anchored p2) [] (parts p2) f1) as [f2|e];
    [|by rewrite <- !app_assoc].
  rewrite mkdir_run. cbn [self fs trace].
  destruct (mkdir_chain (anchored p3) [] (parts p3) f2) as [f3|e];
    by rewrite <- !app_assoc.
Qed.

Lemma init_run (c : PackageClass) (st st' : State) :
  __init__ c st = (Return (), st') →
  ∃ f1 f2 f3,
    mkdir_chain (anchored DIST_PATH) [] (parts DIST_PATH) (fs st) = Return f1
    ∧ mkdir_chain (anchored (destdir c)) [] (parts (destdir c)) f1 = Return f2
    ∧ mkdir_chain (anchored SYSROOT) [] (parts SYSROOT) f2 = Return f3
    ∧ st' = mkState (instantiate c) f3
              (trace st ++ [EMkdir (Pathlib.to_str DIST_PATH);
                            EMkdir (Pathlib.to_str (destdir c));
                            EMkdir (Pathlib.to_str SYSROOT)]).
Proof.
  unfold __init__. rewrite three_mkdirs.
  destruct (mkdir_chain (anchored DIST_PATH) [] (parts DIST_PATH) (fs st))
    as [f1|e] eqn:E1; [|intros [=]].
  destruct (mkdir_chain (anchored (destdir c)) [] (parts (destdir c)) f1)
    as [f2|e] eqn:E2; [|intros [=]].
  destruct (mkdir_chain (anchored SYSROOT) [] (parts SYSROOT) f2)
    as [f3|e] eqn:E3; [|intros [=]].
  intros [= <-]. by exists f1, f2, f3.
Qed.

Lemma parts_dist : parts DIST_PATH ≠ [].
Proof.
  unfold DIST_PATH. rewrite (PathFacts.joinpath_name _ "dist") by done.
  cbn [parts]. intros E. symmetry in E. by apply app_cons_not_nil in E.
Qed.

Lemma parts_sysroot : parts SYSROOT ≠ [].
Proof.
  unfold SYSROOT. rewrite (PathFacts.joinpath_name _ "sysroot") by done.
  cbn [parts]. intros E. symmetry in E. by apply app_cons_not_nil in E.
Qed.

Lemma parts_destdir (c : PackageClass) :
  Str.starts_with_slash (Str.lower (cls_name c)) = false →
  parts (destdir c) ≠ [].
Proof.
  intros Hname. unfold destdir.
  rewrite (PathFacts.joinpath_name _ "target") by done.
  unfold Pathlib.joinpath at 1. rewrite Hname. cbn [parts].
  rewrite <- app_assoc. intros E. symmetry in E. by apply app_cons_not_nil in E.
Qed.

Lemma to_str_eta (p : Path) : mkPath (anchored p) ([] ++ parts p) = p.
Proof. by destruct p. Qed.

(** X18. A package that has been constructed has its three directories:
    the distribution directory, its own destination directory
    [BUILDDIR/target/{name}] and the sysroot are directories afterwards,
    every file and directory that was there before is still there, and
    the instance starts with the lower-cased class name, an empty [env]
    and no toolchain. *)
Theorem init_creates_directories (c : PackageClass) (st st' : State) :
  __init__ c st = (Return (), st') →
  Str.starts_with_slash (Str.lower (cls_name c)) = false →
  fs st' !! Pathlib.to_str DIST_PATH = Some Dir
  ∧ fs st' !! Pathlib.to_str (destdir c) = Some Dir
  ∧ fs st' !! Pathlib.to_str SYSROOT = Some Dir
  ∧ fs st ⊆ fs st'
  ∧ name (self st') = Str.lower (cls_name c)
  ∧ env (self st') = ∅
  ∧ _ndk (self st') = None
  ∧ unified_toolchain (self st') = None.
Proof.
  intros Hinit Hname.
  apply init_run in Hinit as (f1 & f2 & f3 & R1 & R2 & R3 & ->). simpl.
  pose proof (mkdir_chain_subseteq _ _ _ _ _ R1) as S1.
  pose proof (mkdir_chain_subseteq _ _ _ _ _ R2) as S2.
  pose proof (mkdir_chain_subseteq _ _ _ _ _ R3) as S3.
  pose proof (mkdir_chain_creates _ _ _ _ _ R1 parts_dist) as D1.
  pose proof (mkdir_chain_creates _ _ _ _ _ R2 (parts_destdir c Hname)) as D2.
  pose proof (mkdir_chain_creates _ _ _ _ _ R3 parts_sysroot) as D3.
  rewrite to_str_eta in D1, D2, D3.
  split; [|split; [|split; [|split]]].
  - eapply lookup_weaken; [|exact S3]. by eapply lookup_weaken.
  - by eapply lookup_weaken.
  - exact D3.
  - by repeat (etransitivity; [eassumption|]).
  - done.
Qed.

(** X19. Constructing a package again, on the files the first
    construction left, succeeds and changes no file: the directories that
    are there are accepted. *)
Theorem init_again_changes_nothing (c : PackageClass) (st st' : State) :
  __init__ c st = (Return (), st') →
  ∃ st'',
    __init__ c st' = (Return (), st'')
    ∧ fs st'' = fs st'
    ∧ self st'' = self st'.
Proof.
  intros Hinit.
  apply init_run in Hinit as (f1 & f2 & f3 & R1 & R2 & R3 & ->).
  pose proof (mkdir_chain_subseteq _ _ _ _ _ R2) as S2.
  pose proof (mkdir_chain_subseteq _ _ _ _ _ R3) as S3.
  assert (A1 : mkdir_chain (anchored DIST_PATH) [] (parts DIST_PATH) f3 = Return f3).
  { eapply mkdir_chain_again; [exact R1|]. by etransitivity. }
  assert (A2 : mkdir_chain (anchored (destdir c)) [] (parts (destdir c)) f3
               = Return f3) by (by eapply mkdir_chain_again).
  assert (A3 : mkdir_chain (anchored SYSROOT) [] (parts SYSROOT) f3 = Return f3)
    by (by eapply mkdir_chain_again).
  eexists. split; [|split].
  - unfold __init__. rewrite three_mkdirs. cbn [fs]. rewrite A1, A2, A3.
    reflexivity.
  - reflexivity.
  - reflexivity.
Qed.

End InitMore.

Lemma init_creates_directories_witness :
  @__init__ Demo.util Demo.Foo (mkState (@instantiate Demo.util Demo.Foo) Demo.disk [])
  = (Return (), Demo.fresh)
  ∧ Str.starts_with_slash (Str.lower (cls_name Demo.Foo)) = false
  ∧ fs Demo.fresh !! "/work/build/dist" = Some Dir
  ∧ fs Demo.fresh !! "/work/build/target/foo" = Some Dir
  ∧ fs Demo.fresh !! "/work/build/sysroot" = Some Dir
  ∧ Demo.disk ⊆ fs Demo.fresh.
Proof.
  assert (E : @__init__ Demo.util Demo.Foo
                (mkState (@instantiate Demo.util Demo.Foo) Demo.disk [])
              = (Return (), Demo.fresh)) by (vm_compute; reflexivity).
  assert (E2 : Str.starts_with_slash (Str.lower (cls_name Demo.Foo)) = false)
    by reflexivity.
  split; [exact E|]. split; [exact E2|].
  destruct (@init_creates_directories Demo.util Demo.Foo _ _ E E2)
    as (D1 & D2 & D3 & S & _).
  split; [exact D1|]. split; [exact D2|]. split; [exact D3|]. exact S.
Defined.

Lemma init_again_changes_nothing_witness :
  @__init__ Demo.util Demo.Foo (mkState (@instantiate Demo.util Demo.Foo) Demo.disk [])
  = (Return (), Demo.fresh)
  ∧ ∃ st'',
      @__init__ Demo.util Demo.Foo Demo.fresh = (Return (), st'')
      ∧ fs st'' = fs Demo.fresh.
Proof.
  assert (E : @__init__ Demo.util Demo.Foo
                (mkState (@instantiate Demo.util Demo.Foo) Demo.disk [])
              = (Return (), Demo.fresh)) by (vm_compute; reflexivity).
  split; [exact E|].
  destruct (@init_again_changes_nothing Demo.util Demo.Foo _ _ E)
    as (st'' & Hrun & Hfs & _).
  exists st''. split; [exact Hrun | exact Hfs].
Defined.

(** ** The enumeration of recipes *)

Module OsPathFacts.

Lemma substring_all (s : string) : String.substring 0 (String.length s) s = s.
Proof. induction s as [|c s IH]; simpl; [done | by rewrite IH]. Qed.

Lemma app_cons (c : ascii) (a b : string) :
  String c a +:+ b = String c (a +:+ b).
Proof. reflexivity. Qed.

Lemma app_nil_l (a : string) : "" +:+ a = a.
Proof. reflexivity. Qed.

Lemma app_nil_r (a : string) : a +:+ "" = a.
Proof. induction a as [|c a IH]; [done|]. by rewrite app_cons, IH. Qed.

(** [p[:d] + p[d:] == p], for every [d]. *)
Lemma substring_split (d : nat) (p : string) :
  String.substring 0 d p +:+ String.substring d (String.length p - d) p = p.
Proof.
  revert d. induction p as [|c p IH]; intros [|d]; simpl; try done.
  - by rewrite app_nil_l, substring_all.
  - by rewrite app_cons, IH.
Qed.

Lemma skip_leading_dots_join (p : string) (d remaining i : nat) :
  (OsPath.skip_leading_dots p d remaining i).1
  +:+ (OsPath.skip_leading_dots p d remaining i).2 = p.
Proof.
  revert i. induction remaining as [|k IH]; intros i; simpl.
  - apply app_nil_r.
  - destruct (OsPath.not_dot_at p i); simpl; [apply substring_split | apply IH].
Qed.

(** Root and extension make up the path. *)
Lemma splitext_join (p : string) :
  (OsPath.splitext p).1 +:+ (OsPath.splitext p).2 = p.
Proof.
  pose proof (app_nil_r p) as Hnil.
  unfold OsPath.splitext.
  destruct (OsPath.rfind "." p) as [d|]; [|exact Hnil].
  destruct (OsPath.index_lt _ _); [|exact Hnil].
  apply skip_leading_dots_join.
Qed.

Lemma rfind_no_slash (s : string) :
  no_slash s = true → OsPath.rfind "/" s = None.
Proof.
  induction s as [|c s IH]; simpl; [done|].
  intros [Hc Hs]%andb_true_iff. rewrite (IH Hs).
  apply negb_true_iff in Hc. by rewrite Hc.
Qed.

Lemma rfind_app_none (c : ascii) (a b : string) :
  OsPath.rfind c a = None → OsPath.rfind c b = None →
  OsPath.rfind c (a +:+ b) = None.
Proof.
  intros Ha Hb. induction a as [|x a IH]; simpl in *; [done|].
  destruct (OsPath.rfind c a); [done|]. rewrite IH by done.
  by destruct (Ascii.eqb x c).
Qed.

Lemma rfind_app_some (c : ascii) (a b : string) (i : nat) :
  OsPath.rfind c b = Some i →
  OsPath.rfind c (a +:+ b) = Some (String.length a + i)%nat.
Proof.
  intros Hb. induction a as [|x a IH]; simpl; [done|]. by rewrite IH.
Qed.

Lemma get_app_length (pre : string) (c : ascii) (rest : string) :
  String.get (String.length pre) (pre +:+ String c rest) = Some c.
Proof. induction pre as [|x pre IH]; simpl; done. Qed.

Lemma app_assoc_one (pre : string) (c : ascii) (rest : string) :
  pre +:+ String c rest = (pre +:+ String c "") +:+ rest.
Proof.
  induction pre as [|x pre IH]; [done|]. by rewrite !app_cons, IH.
Qed.

Lemma length_snoc (pre : string) (c : ascii) :
  String.length (pre +:+ String c "") = S (String.length pre).
Proof. rewrite StrFacts.length_app. simpl. lia. Qed.

(** The loop stops at the first character of [s] that is not a dot. *)
Lemma skip_leading_dots_found (s pre rest : string) (d : nat) :
  has_non_dot s = true →
  OsPath.skip_leading_dots (pre +:+ s +:+ rest) d (String.length s) (String.length pre)
  = (String.substring 0 d (pre +:+ s +:+ rest),
     String.substring d (String.length (pre +:+ s +:+ rest) - d) (pre +:+ s +:+ rest)).
Proof.
  revert pre. induction s as [|c s IH]; intros pre Hs; [done|].
  simpl in Hs. cbn [String.length OsPath.skip_leading_dots].
  unfold OsPath.not_dot_at.
  change (String c s +:+ rest) with (String c (s +:+ rest)).
  rewrite get_app_length.
  destruct (Ascii.eqb c ".") eqn:Hc; simpl; [|done].
  rewrite ?Hc in Hs. simpl in Hs.
  rewrite (app_assoc_one pre c (s +:+ rest)), <- (length_snoc pre c).
  by apply IH.
Qed.

Lemma substring_prefix (a b : string) :
  String.substring 0 (String.length a) (a +:+ b) = a.
Proof.
  induction a as [|c a IH]; [by destruct b|].
  rewrite app_cons. simpl. by rewrite IH.
Qed.

Lemma substring_suffix (a b : string) :
  String.substring (String.length a) (String.length (a +:+ b) - String.length a)
    (a +:+ b) = b.
Proof.
  induction a as [|c a IH].
  - rewrite app_nil_l. simpl. rewrite Nat.sub_0_r. apply substring_all.
  - rewrite app_cons. simpl. exact IH.
Qed.

(** A name with a character that is not a dot, followed by [.py]. *)
Lemma splitext_py (stem : string) :
  no_slash stem = true → has_non_dot stem = true →
  OsPath.splitext (stem +:+ ".py") = (stem, ".py").
Proof.
  intros Hslash Hdot. unfold OsPath.splitext.
  rewrite (rfind_app_none "/" stem ".py" (rfind_no_slash stem Hslash) eq_refl).
  rewrite (rfind_app_some "." stem ".py" 0 eq_refl).
  rewrite Nat.add_0_r. cbn [OsPath.index_lt OsPath.index_succ].
  rewrite Nat.sub_0_r.
  pose proof (skip_leading_dots_found stem "" ".py" (String.length stem) Hdot) as E.
  rewrite !app_nil_l in E. cbn [String.length] in E. rewrite E.
  by rewrite substring_prefix, substring_suffix.
Qed.

End OsPathFacts.

Lemma omap_length_le {A B} (f : A → option B) (l : list A) :
  (List.length (omap f l) ≤ List.length l)%nat.
Proof.
  induction l as [|x l IH]; simpl; [done|].
  change (list_omap A B f l) with (omap f l).
  destruct (f x); simpl; lia.
Qed.

(** What [enumerate_packages] keeps of one entry. *)
Lemma enumerate_entry (here : Path) (entry : string) :
  no_slash entry = true → entry ≠ "" → entry ≠ "." →
  Pathlib.basename (Pathlib.to_str (here // "packages" // entry)) = entry.
Proof. apply PathFacts.basename_joinpath. Qed.

(** X20. Every name that [enumerate_packages] yields is the name of a
    recipe file: for the entries the operating system lists (plain names,
    without a slash), a yielded [name] means that [name.py] is in the
    directory. No more names are yielded than there are entries, and an
    error of the listing is the error of the enumeration. *)
Theorem enumerate_packages_sound (here : Path) (names : list string) :
  Forall (λ e, no_slash e = true ∧ e ≠ "" ∧ e ≠ ".") names →
  ∃ found,
    enumerate_packages here (Return names) = Return found
    ∧ (∀ n, n ∈ found → n +:+ ".py" ∈ names)
    ∧ (List.length found ≤ List.length names)%nat
    ∧ (∀ e, enumerate_packages here (Raise e) = Raise e).
Proof.
  intros Hplain. eexists. split; [reflexivity|]. split; [|split].
  - intros n Hin. apply list_elem_of_omap in Hin as (entry & Hentry & Hkeep).
    pose proof (proj1 (Forall_forall _ _) Hplain entry Hentry) as (Hs & Hne & Hdot).
    cbv beta zeta in Hkeep.
    rewrite (enumerate_entry here entry Hs Hne Hdot) in Hkeep.
    pose proof (OsPathFacts.splitext_join entry) as Hjoin.
    destruct (OsPath.splitext entry) as [pkgname ext]. simpl in Hjoin.
    destruct (String.eqb ext ".py") eqn:Hext; simpl in Hkeep; [|done].
    apply String.eqb_eq in Hext. injection Hkeep as <-.
    by rewrite <- Hext, Hjoin.
  - apply omap_length_le.
  - done.
Qed.

(** X21. Every recipe file is enumerated: an entry [stem.py] whose stem
    has a character that is not a dot is yielded as [stem]. This goes for
    [__init__.py] too, which is yielded as [__init__]. *)
Theorem enumerate_packages_complete (here : Path) (names : list string)
    (stem : string) :
  Forall (λ e, no_slash e = true ∧ e ≠ "" ∧ e ≠ ".") names →
  stem +:+ ".py" ∈ names →
  has_non_dot stem = true →
  ∃ found,
    enumerate_packages here (Return names) = Return found ∧ stem ∈ found.
Proof.
  intros Hplain Hin Hdot. eexists. split; [reflexivity|].
  apply list_elem_of_omap. exists (stem +:+ ".py"). split; [exact Hin|].
  pose proof (proj1 (Forall_forall _ _) Hplain _ Hin) as (Hs & Hne & Hd).
  cbv beta zeta. rewrite (enumerate_entry here _ Hs Hne Hd).
  assert (Hstem : no_slash stem = true).
  { clear -Hs. induction stem as [|c stem IH]; simpl in *; [done|].
    apply andb_true_iff in Hs as [Hc Hr]. rewrite Hc. simpl. by apply IH. }
  by rewrite (OsPathFacts.splitext_py stem Hstem Hdot).
Qed.

Lemma enumerate_packages_sound_witness :
  Forall (λ e, no_slash e = true ∧ e ≠ "" ∧ e ≠ ".")
    ["zlib.py"; "__pycache__"; "__init__.py"; "openssl.py"; "notes.txt"]
  ∧ ∃ found,
      enumerate_packages (Pathlib.of_str "/work/pybuild")
        (Return ["zlib.py"; "__pycache__"; "__init__.py"; "openssl.py"; "notes.txt"])
      = Return found
      ∧ (∀ n, n ∈ found →
           n +:+ ".py"
           ∈ ["zlib.py"; "__pycache__"; "__init__.py"; "openssl.py"; "notes.txt"]).
Proof.
  assert (E : Forall (λ e, no_slash e = true ∧ e ≠ "" ∧ e ≠ ".")
    ["zlib.py"; "__pycache__"; "__init__.py"; "openssl.py"; "notes.txt"])
    by (repeat constructor; discriminate).
  split; [exact E|].
  destruct (enumerate_packages_sound (Pathlib.of_str "/work/pybuild") _ E)
    as (found & Hrun & Hsound & _).
  exists found. split; [exact Hrun | exact Hsound].
Defined.

Lemma enumerate_packages_complete_witness :
  Forall (λ e, no_slash e = true ∧ e ≠ "" ∧ e ≠ ".")
    ["zlib.py"; "__pycache__"; "__init__.py"; "openssl.py"; "notes.txt"]
  ∧ "__init__" +:+ ".py"
    ∈ ["zlib.py"; "__pycache__"; "__init__.py"; "openssl.py"; "notes.txt"]
  ∧ has_non_dot "__init__" = true
  ∧ ∃ found,
      enumerate_packages (Pathlib.of_str "/work/pybuild")
        (Return ["zlib.py"; "__pycache__"; "__init__.py"; "openssl.py"; "notes.txt"])
      = Return found
      ∧ "__init__" ∈ found.
Proof.
  assert (E : Forall (λ e, no_slash e = true ∧ e ≠ "" ∧ e ≠ ".")
    ["zlib.py"; "__pycache__"; "__init__.py"; "openssl.py"; "notes.txt"])
    by (repeat constructor; discriminate).
  assert (E2 : "__init__" +:+ ".py"
    ∈ ["zlib.py"; "__pycache__"; "__init__.py"; "openssl.py"; "notes.txt"])
    by (apply list_elem_of_In; simpl; tauto).
  assert (E3 : has_non_dot "__init__" = true) by reflexivity.
  split; [exact E|]. split; [exact E2|]. split; [exact E3|].
  exact (enumerate_packages_complete (Pathlib.of_str "/work/pybuild") _ _ E E2 E3).
Defined.

(** ** The enumeration of sources: nothing else is listed *)

Lemma sources_flat_map (p : Package) :
  sources p = flat_map with_signature (declared_sources (klass p)).
Proof. unfold sources, chained, declared_sources. by rewrite sources_fold. Qed.

Lemma with_signature_length (s : Source) :
  (1 ≤ List.length (with_signature s) ≤ 2)%nat.
Proof.
  unfold with_signature. destruct (sig_suffix s) as [suffix|]; simpl; [|lia].
  destruct (Str.truthy suffix); simpl; lia.
Qed.

Lemma flat_map_with_signature_length (l : list Source) :
  (List.length l ≤ List.length (flat_map with_signature l) ≤ 2 * List.length l)%nat.
Proof.
  induction l as [|s l IH]; simpl; [lia|].
  rewrite length_app. pose proof (with_signature_length s). lia.
Qed.

(** X22. [sources] lists the Sources of the package and their signature
    files and nothing else: an entry is the source, a fetched patch, or
    the URL source [source_url + sig_suffix] of one of them whose suffix
    is not empty. A patch that is kept in the tree is never listed, and
    the list is at least as long as the Sources are many and at most
    twice as long. *)
Theorem sources_membership (p : Package) :
  (∀ x, x ∈ sources p ↔
        x ∈ declared_sources (klass p)
        ∨ ∃ s suffix,
            s ∈ declared_sources (klass p) ∧ sig_suffix s = Some suffix
            ∧ suffix ≠ "" ∧ x = URLSource (source_url s +:+ suffix))
  ∧ (List.length (declared_sources (klass p)) ≤ List.length (sources p)
     ≤ 2 * List.length (declared_sources (klass p)))%nat
  ∧ (source (klass p) = None →
     Forall (λ q, ∃ file, q = LocalPatch file) (patches (klass p)) →
     sources p = []).
Proof.
  rewrite sources_flat_map. split; [|split].
  - intros x. rewrite list_elem_of_In, in_flat_map. split.
    + intros (s & Hs & Hx). apply list_elem_of_In in Hs.
      unfold with_signature in Hx.
      destruct (sig_suffix s) as [suffix|] eqn:Hsig.
      * destruct suffix as [|c suffix]; simpl in Hx.
        -- destruct Hx as [<-|[]]. by left.
        -- destruct Hx as [<-|[<-|[]]]; [by left|].
           right. exists s, (String c suffix). by repeat split.
      * destruct Hx as [<-|[]]. by left.
    + intros [Hx|(s & suffix & Hs & Hsig & Hne & ->)].
      * exists x. split; [by apply list_elem_of_In|].
        unfold with_signature. destruct (sig_suffix x) as [suffix|]; [|by left].
        destruct (Str.truthy suffix); by left.
      * exists s. split; [by apply list_elem_of_In|].
        unfold with_signature. rewrite Hsig.
        destruct suffix; [done|]. simpl. right. by left.
  - apply flat_map_with_signature_length.
  - intros Hsrc Hlocal. unfold declared_sources. rewrite Hsrc. simpl.
    induction Hlocal as [|q l (file & ->) _ IH]; simpl; [done|]. exact IH.
Qed.
